(** * NotesApp backend: authentication, ownership scoping and note operations

    The repository holds several iterations of one Express/Mongoose service:
    - [server.js] (first document): the JWT server;
    - [server.js] (second document): an express-session server whose note
      routes carry the user id in the path ([/notes/:userId/:noteId]);
    - [unnamed/part_000]: the earliest server, notes embedded in the user
      document, no authentication;
    - [unnamed/part_001] (first document) and [unnamed/part_002] (first
      document): express-session servers whose note routes are the same as
      the JWT server's, plus [GET /notes/:noteId];
    - [unnamed/part_001] (second document): a session server with only
      [GET /notes] and [POST /notes];
    - [models/Note.js], [models/User.js] and the second document of
      [unnamed/part_002]: the Mongoose schemas.

    Handlers are embedded as functions from the persistent collections and
    the request to a response and the new collections.  Mongoose, MongoDB,
    bcrypt, jsonwebtoken and express-session are libraries outside the
    repository; what the handlers rely on is modelled next to its use and
    said so.  Strings are byte strings: [trim] and [toLowerCase] act on the
    ASCII range. *)

From Stdlib Require Import String Ascii ZArith.
From stdpp Require Import base option list sorting gmap strings.

Local Open Scope string_scope.

(** ** JavaScript strings *)

Module Js.

(** White space removed by [String.prototype.trim], ASCII range. *)
Definition isWhiteSpace (c : ascii) : bool :=
  let n := nat_of_ascii c in
  ((9 <=? n)%nat && (n <=? 13)%nat) || (n =? 32)%nat.

Fixpoint trimStart (s : string) : string :=
  match s with
  | String c s' => if isWhiteSpace c then trimStart s' else s
  | EmptyString => EmptyString
  end.

Fixpoint trimEnd (s : string) : string :=
  match s with
  | String c s' =>
      match trimEnd s' with
      | EmptyString => if isWhiteSpace c then EmptyString else String c EmptyString
      | t => String c t
      end
  | EmptyString => EmptyString
  end.

Definition trim (s : string) : string := trimEnd (trimStart s).

Definition lowerChar (c : ascii) : ascii :=
  let n := nat_of_ascii c in
  if ((65 <=? n)%nat && (n <=? 90)%nat) then ascii_of_nat (n + 32) else c.

Fixpoint toLowerCase (s : string) : string :=
  match s with
  | String c s' => String (lowerChar c) (toLowerCase s')
  | EmptyString => EmptyString
  end.

(** Truthiness of a string value: only the empty string is falsy. *)
Definition truthy (s : string) : bool := negb (String.eqb s EmptyString).

(** Truthiness of a possibly-undefined string. *)
Definition truthy_opt (s : option string) : bool :=
  match s with
  | Some s => truthy s
  | None => false
  end.

(** [a || b] where [a] is a possibly-undefined string. *)
Definition or (a : option string) (b : string) : string :=
  match a with
  | Some s => if truthy s then s else b
  | None => b
  end.

End Js.

(** ** Documents and responses *)

Definition ObjectId := nat.
(** [Date] values as milliseconds; JWT clocks count seconds. *)
Definition Date := Z.
Bind Scope nat_scope with ObjectId.
Bind Scope Z_scope with Date.

(** A document of the [Note] model ([models/Note.js], with the [_id] and the
    two [timestamps] fields Mongoose adds). *)
Record Note := mkNote {
  _id : ObjectId;
  title : string;
  content : string;
  color : string;
  category : string;
  isPinned : bool;
  isFavorite : bool;
  isArchived : bool;
  user : ObjectId;
  createdAt : Date;
  updatedAt : Date
}.

#[global] Instance Note_eq_dec : EqDecision Note.
Proof. solve_decision. Defined.

(** The sub-document of the embedded [NoteSchema] in [models/User.js]. *)
Record SubNote := mkSubNote {
  sub_id : ObjectId;
  sub_title : string;
  sub_content : string;
  sub_color : string;
  sub_createdAt : Date;
  sub_updatedAt : Date
}.

#[global] Instance SubNote_eq_dec : EqDecision SubNote.
Proof. solve_decision. Defined.

(** A document of the [User] model.  [notes] is the embedded array of
    [models/User.js]; it stays empty under the later schema, which has no
    such path. *)
Record User := mkUser {
  user_id : ObjectId;
  name : string;
  email : string;
  password : string;
  notes : list SubNote
}.

#[global] Instance User_eq_dec : EqDecision User.
Proof. solve_decision. Defined.

(** [{ id, name, email }], the user as the auth routes return it. *)
Record PublicUser := mkPublicUser {
  pub_id : ObjectId;
  pub_name : string;
  pub_email : string
}.

Definition publicUser (u : User) : PublicUser :=
  {| pub_id := user_id u; pub_name := name u; pub_email := email u |}.

(** A signed JSON web token: the payload [{ userId, iat, exp }] and the
    secret its signature was made with. *)
Record Jwt := mkJwt {
  jwt_userId : ObjectId;
  iat : Z;
  exp : Z;
  signedWith : string
}.

(** JSON bodies the handlers send. *)
Inductive Json : Type :=
| JError (error : string)
| JMsg (message : string)
| JNotes (notes : list Note)
| JNote (note : Note)
| JMsgNote (message : string) (note : Note)
| JSubNotes (notes : list SubNote)
| JSubNote (note : SubNote)
| JMsgSubNote (message : string) (note : SubNote)
| JSuccess
| JUser (u : PublicUser)
| JMsgUser (message : string) (u : PublicUser)
| JMsgTokenUser (message : string) (token : Jwt) (u : PublicUser)
| JFullUser (u : User)
| JUserNotes (u : PublicUser) (notes : list SubNote).

Record Response := mkResponse { status : nat; body : Json }.

Definition json (code : nat) (b : Json) : Response := {| status := code; body := b |}.
(** [res.json(b)] with no [res.status]: 200. *)
Definition ok (b : Json) : Response := json 200 b.

(** ** Mongoose collections *)

Module Mongoose.

Section Collection.
Context {Doc : Type}.

(** [Model.findOne({ _id: id, ...rest })]: the document stored under [id],
    if it satisfies the other conditions. *)
Definition findOne (id : ObjectId) (rest : Doc → bool) (c : gmap ObjectId Doc)
  : option Doc :=
  match c !! id with
  | Some d => if rest d then Some d else None
  | None => None
  end.

(** [Model.deleteOne({ _id: id, ...rest })]: [deletedCount] and the
    collection afterwards. *)
Definition deleteOne (id : ObjectId) (rest : Doc → bool) (c : gmap ObjectId Doc)
  : nat * gmap ObjectId Doc :=
  match findOne id rest c with
  | Some _ => (1, delete id c)
  | None => (0, c)
  end.

(** [Model.findOneAndUpdate({ _id: id, ...rest }, update, { new: true })]:
    the updated document (or null) and the collection afterwards. *)
Definition findOneAndUpdate (id : ObjectId) (rest : Doc → bool) (update : Doc → Doc)
    (c : gmap ObjectId Doc) : option Doc * gmap ObjectId Doc :=
  match findOne id rest c with
  | Some d => (Some (update d), <[id := update d]> c)
  | None => (None, c)
  end.

(** [Model.find(conditions)], in storage order. *)
Definition find (conditions : Doc → bool) (c : gmap ObjectId Doc) : list Doc :=
  List.filter conditions ((map_to_list c).*2).

End Collection.

(** [.sort({ isPinned: -1, createdAt: -1 })]: descending on [isPinned]
    ([true] sorts above [false]), then descending on [createdAt]. *)
Definition byPinnedThenCreatedDesc (a b : Note) : Prop :=
  (isPinned a = true ∧ isPinned b = false) ∨
  (isPinned a = isPinned b ∧ (createdAt b ≤ createdAt a)%Z).

(** [.sort({ createdAt: -1 })]. *)
Definition byCreatedDesc (a b : Note) : Prop := (createdAt b ≤ createdAt a)%Z.

#[global] Instance byPinnedThenCreatedDesc_dec a b : Decision (byPinnedThenCreatedDesc a b).
Proof. unfold byPinnedThenCreatedDesc. apply _. Defined.

#[global] Instance byCreatedDesc_dec a b : Decision (byCreatedDesc a b).
Proof. unfold byCreatedDesc. apply _. Defined.

(** [Query.sort]: the matching documents reordered by the sort key, modelled
    by a stable merge sort. *)
Definition sort (R : relation Note) `{∀ a b, Decision (R a b)} (l : list Note)
  : list Note := merge_sort R l.

(** [document.save()] of a loaded and modified note: the stored document is
    replaced; [timestamps] refreshes [updatedAt] when a path was modified. *)
Definition save (now : Date) (loaded modified : Note) (c : gmap ObjectId Note)
  : Note * gmap ObjectId Note :=
  let saved :=
    if decide (modified = loaded) then modified
    else {| _id := _id modified; title := title modified; content := content modified;
            color := color modified; category := category modified;
            isPinned := isPinned modified; isFavorite := isFavorite modified;
            isArchived := isArchived modified; user := user modified;
            createdAt := createdAt modified; updatedAt := now |} in
  (saved, <[_id loaded := saved]> c).

End Mongoose.

(** ** The note routes scoped by the authenticated user

    [GET /notes], [POST /notes], [PUT /notes/:noteId], [DELETE /notes/:noteId],
    [PATCH /notes/:noteId/pin] and [PATCH /notes/:noteId/archive] are the same
    in [server.js] (JWT), [unnamed/part_001] and [unnamed/part_002] once the
    auth middleware has resolved the user id ([req.userId], or
    [req.session.userId]); [GET /notes/:noteId] is in [unnamed/part_001].
    [noteId] ranges over well-formed ids: a path segment that is no ObjectId
    makes Mongoose throw, and the handler answers 500. *)

Module Query.
(** [req.query] of [GET /notes]. *)
Record t := mk { search : option string; category : option string; isArchived : option string }.
End Query.

Module CreateBody.
(** [req.body] of [POST /notes]. *)
Record t := mk {
  title : option string;
  content : option string;
  color : option string;
  category : option string
}.
End CreateBody.

Module Fields.
(** [req.body] of [PUT /notes/:noteId], and the [updateData] built from it:
    [None] is [undefined]; the string paths carry JSON strings and the
    boolean paths JSON booleans. *)
Record t := mk {
  title : option string;
  content : option string;
  color : option string;
  category : option string;
  isPinned : option bool;
  isFavorite : option bool;
  isArchived : option bool
}.
End Fields.

Module Notes.

Section Routes.

(** MongoDB's [{ $regex: pattern, $options: 'i' }]: [None] when the server
    rejects the pattern, otherwise the case-insensitive matcher. *)
Variable regex : string → option (string → bool).

Definition ownedBy (userId : ObjectId) (n : Note) : bool := (user n =? userId)%nat.

(** [GET /notes].  Mongoose casts the [category] condition through the
    schema's [trim], as it does every value of a [trim]med path. *)
Definition getNotes (userId : ObjectId) (query : Query.t) (notes : gmap ObjectId Note)
  : Response :=
  let isArchived_param := default "false" (Query.isArchived query) in
  let archived := String.eqb isArchived_param "true" in
  let base n := ownedBy userId n && Bool.eqb (isArchived n) archived in
  let withSearch : option (Note → bool) :=
    match Query.search query with
    | Some search =>
        if Js.truthy search then
          match regex search with
          | Some re => Some (λ n, re (title n) || re (content n))
          | None => None
          end
        else Some (λ _, true)
    | None => Some (λ _, true)
    end in
  let withCategory n :=
    match Query.category query with
    | Some cat => if Js.truthy cat then String.eqb (category n) (Js.trim cat) else true
    | None => true
    end in
  match withSearch with
  | Some matches =>
      ok (JNotes (Mongoose.sort Mongoose.byPinnedThenCreatedDesc
                    (Mongoose.find (λ n, base n && matches n && withCategory n) notes)))
  | None => json 500 (JError "Failed to get notes")
  end.

(** [GET /notes/:noteId]. *)
Definition getNote (userId noteId : ObjectId) (notes : gmap ObjectId Note) : Response :=
  match Mongoose.findOne noteId (ownedBy userId) notes with
  | Some note => ok (JNote note)
  | None => json 404 (JError "Note not found")
  end.

(** [POST /notes].  [newId] is the id the driver draws for the document;
    [title] is [required] and the string paths are [trim]med. *)
Definition createNote (userId : ObjectId) (b : CreateBody.t) (newId : ObjectId) (now : Date)
    (notes : gmap ObjectId Note) : Response * gmap ObjectId Note :=
  let content := default EmptyString (CreateBody.content b) in
  let color := default "#ffffff" (CreateBody.color b) in
  let category := default "General" (CreateBody.category b) in
  match CreateBody.title b, notes !! newId with
  | Some title, None =>
      if Js.truthy (Js.trim title) then
        let note :=
          {| _id := newId; title := Js.trim title; content := Js.trim content;
             color := color; category := Js.trim category;
             isPinned := false; isFavorite := false; isArchived := false;
             user := userId; createdAt := now; updatedAt := now |} in
        (json 201 (JMsgNote "Note created successfully" note), <[newId := note]> notes)
      else (json 500 (JError "Failed to create note"), notes)
  | _, _ => (json 500 (JError "Failed to create note"), notes)
  end.

(** The [updateData] object of [PUT /notes/:noteId]. *)
Definition updateData (b : Fields.t) : Fields.t :=
  {| Fields.title := Fields.title b;
     Fields.content := Fields.content b;
     Fields.color := Fields.color b;
     Fields.category := Fields.category b;
     (* isPinned is assigned first from the body, then again under isArchived *)
     Fields.isPinned :=
       match Fields.isArchived b with
       | Some true => Some false
       | _ => Fields.isPinned b
       end;
     Fields.isFavorite := Fields.isFavorite b;
     Fields.isArchived := Fields.isArchived b |}.

(** What [findOneAndUpdate] writes for an update object: each present path
    is set (string paths through the schema's [trim]), and [timestamps]
    sets [updatedAt]. *)
Definition applyUpdate (now : Date) (d : Fields.t) (n : Note) : Note :=
  {| _id := _id n;
     title := from_option Js.trim (title n) (Fields.title d);
     content := from_option Js.trim (content n) (Fields.content d);
     color := default (color n) (Fields.color d);
     category := from_option Js.trim (category n) (Fields.category d);
     isPinned := default (isPinned n) (Fields.isPinned d);
     isFavorite := default (isFavorite n) (Fields.isFavorite d);
     isArchived := default (isArchived n) (Fields.isArchived d);
     user := user n;
     createdAt := createdAt n;
     updatedAt := now |}.

(** [PUT /notes/:noteId]. *)
Definition updateNote (userId noteId : ObjectId) (b : Fields.t) (now : Date)
    (notes : gmap ObjectId Note) : Response * gmap ObjectId Note :=
  match Mongoose.findOneAndUpdate noteId (ownedBy userId)
          (applyUpdate now (updateData b)) notes with
  | (Some note, notes') => (ok (JMsgNote "Note updated successfully" note), notes')
  | (None, notes') => (json 404 (JError "Note not found"), notes')
  end.

(** [DELETE /notes/:noteId]. *)
Definition deleteNote (userId noteId : ObjectId) (notes : gmap ObjectId Note)
  : Response * gmap ObjectId Note :=
  match Mongoose.deleteOne noteId (ownedBy userId) notes with
  | (O, notes') => (json 404 (JError "Note not found"), notes')
  | (_, notes') => (ok (JMsg "Note deleted successfully"), notes')
  end.

Definition withIsPinned (v : bool) (n : Note) : Note :=
  {| _id := _id n; title := title n; content := content n; color := color n;
     category := category n; isPinned := v; isFavorite := isFavorite n;
     isArchived := isArchived n; user := user n; createdAt := createdAt n;
     updatedAt := updatedAt n |}.

Definition withIsArchived (v : bool) (n : Note) : Note :=
  {| _id := _id n; title := title n; content := content n; color := color n;
     category := category n; isPinned := isPinned n; isFavorite := isFavorite n;
     isArchived := v; user := user n; createdAt := createdAt n;
     updatedAt := updatedAt n |}.

(** [PATCH /notes/:noteId/pin]. *)
Definition togglePin (userId noteId : ObjectId) (now : Date) (notes : gmap ObjectId Note)
  : Response * gmap ObjectId Note :=
  match Mongoose.findOne noteId (ownedBy userId) notes with
  | None => (json 404 (JError "Note not found"), notes)
  | Some loaded =>
      let note := withIsPinned (negb (isPinned loaded)) loaded in
      let '(note, notes') := Mongoose.save now loaded note notes in
      (ok (JMsgNote (if isPinned note then "Note pinned successfully"
                     else "Note unpinned successfully") note), notes')
  end.

(** [PATCH /notes/:noteId/archive]; [archive] is [req.body.archive]. *)
Definition setArchived (userId noteId : ObjectId) (archive : option bool) (now : Date)
    (notes : gmap ObjectId Note) : Response * gmap ObjectId Note :=
  let archive := default true archive in
  match Mongoose.findOne noteId (ownedBy userId) notes with
  | None => (json 404 (JError "Note not found"), notes)
  | Some loaded =>
      let note := withIsArchived archive loaded in
      let note := if archive then withIsPinned false note else note in
      let '(note, notes') := Mongoose.save now loaded note notes in
      (ok (JMsgNote (if archive then "Note archived successfully"
                     else "Note unarchived successfully") note), notes')
  end.

(** [GET /categories]: the [categories] array of the answer,
    [Note.distinct("category", { user: userId })]. *)
Definition getCategories (userId : ObjectId) (notes : gmap ObjectId Note) : list string :=
  remove_dups (category <$> Mongoose.find (ownedBy userId) notes).

(** The mutating note routes, as the router dispatches them. *)
Inductive Mutation :=
| Create (b : CreateBody.t) (newId : ObjectId)       (* POST /notes *)
| Update (noteId : ObjectId) (b : Fields.t)          (* PUT /notes/:noteId *)
| Delete (noteId : ObjectId)                         (* DELETE /notes/:noteId *)
| TogglePin (noteId : ObjectId)                      (* PATCH /notes/:noteId/pin *)
| SetArchived (noteId : ObjectId) (archive : option bool).  (* PATCH /notes/:noteId/archive *)

Definition route (userId : ObjectId) (m : Mutation) (now : Date)
    (notes : gmap ObjectId Note) : Response * gmap ObjectId Note :=
  match m with
  | Create b newId => createNote userId b newId now notes
  | Update noteId b => updateNote userId noteId b now notes
  | Delete noteId => deleteNote userId noteId notes
  | TogglePin noteId => togglePin userId noteId now notes
  | SetArchived noteId archive => setArchived userId noteId archive now notes
  end.

End Routes.

End Notes.

(** ** Users: schemas, signup and login *)

Module UserSchema.

(** The setters a [User] schema puts on its string paths; Mongoose applies
    them to values it stores and to the values of query conditions. *)
Record t := mk { castName : string → string; castEmail : string → string }.

(** [models/User.js]: [email: {type: String, required: true, unique: true}]. *)
Definition plain : t := {| castName := λ s, s; castEmail := λ s, s |}.

(** [unnamed/part_002], second document: [name] has [trim]; [email] has
    [lowercase] and [trim]. *)
Definition normalized : t :=
  {| castName := Js.trim; castEmail := λ s, Js.trim (Js.toLowerCase s) |}.

End UserSchema.

Module SignupBody.
Record t := mk { name : string; email : string; password : string }.
End SignupBody.

Module LoginBody.
Record t := mk { email : string; password : string }.
End LoginBody.

Module Users.

Section Users.

Variable schema : UserSchema.t.

(** [User.findOne({ email })]. *)
Definition findOneByEmail (email_ : string) (users : gmap ObjectId User) : option User :=
  List.find (λ u, String.eqb (email u) (UserSchema.castEmail schema email_))
            ((map_to_list users).*2).

(** [User.create({ name, email, password })]: [None] when Mongoose throws
    (a [required] path is empty, or the unique index on [email] or the
    [_id] is already taken). *)
Definition create (newId : ObjectId) (name_ email_ password_ : string)
    (users : gmap ObjectId User) : option (User * gmap ObjectId User) :=
  let u := {| user_id := newId;
              name := UserSchema.castName schema name_;
              email := UserSchema.castEmail schema email_;
              password := password_;
              notes := [] |} in
  if Js.truthy (name u) && Js.truthy (email u) && Js.truthy (password u) then
    match users !! newId,
          List.find (λ v, String.eqb (email v) (email u)) ((map_to_list users).*2) with
    | None, None => Some (u, <[newId := u]> users)
    | _, _ => None
    end
  else None.

End Users.

End Users.

(** ** [server.js], first document: the JWT server *)

Module Env.
(** [process.env]. *)
Record t := mk { JWT_SECRET : option string; SESSION_SECRET : option string }.
End Env.

(** jsonwebtoken, as far as [generateToken] and [requireAuth] use it.  Its
    clock is [Math.floor(Date.now() / 1000)].  [sign] stamps [iat] with the
    clock and sets [exp = iat + expiresIn]; [verify] throws unless the
    signature was made with the same secret and the clock is before [exp].
    Both throw on a missing or empty secret. *)
Module jsonwebtoken.

Definition clockTimestamp (now : Date) : Z := (now / 1000)%Z.

Definition sign (userId : ObjectId) (secret : option string) (expiresIn : Z) (now : Date)
  : option Jwt :=
  match secret with
  | Some s =>
      if Js.truthy s then
        Some {| jwt_userId := userId; iat := clockTimestamp now;
                exp := (clockTimestamp now + expiresIn)%Z; signedWith := s |}
      else None
  | None => None
  end.

Definition verify (token : Jwt) (secret : option string) (now : Date) : option Jwt :=
  match secret with
  | Some s =>
      if Js.truthy s && String.eqb (signedWith token) s
         && negb (exp token <=? clockTimestamp now)%Z
      then Some token else None
  | None => None
  end.

End jsonwebtoken.

(** One piece of the [Authorization] header after [split(' ')]: a
    well-formed token, or any other text. *)
Inductive Segment :=
| Text (s : string)
| Token (t : Jwt).

Module Jwt.

Section Server.

Variable env : Env.t.
Variable schema : UserSchema.t.
(** bcrypt: [hash] with the salt it drew; [compare] of a plaintext with a
    stored hash. *)
Variable bcrypt_hash : string → string → string.
Variable bcrypt_compare : string → string → bool.

(** [process.env.JWT_SECRET || process.env.SESSION_SECRET]. *)
Definition JWT_SECRET : option string :=
  if Js.truthy_opt (Env.JWT_SECRET env) then Env.JWT_SECRET env
  else Env.SESSION_SECRET env.

(** ['7d'] in seconds. *)
Definition expiresIn : Z := 604800.

Definition generateToken (userId : ObjectId) (now : Date) : option Jwt :=
  jsonwebtoken.sign userId JWT_SECRET expiresIn now.

(** [requireAuth]: [inr userId] is [next()] with [req.userId] set; [inl] is
    the response that ends the request.  [authorization] is the header
    split at spaces, [None] when the header is missing. *)
Definition requireAuth (authorization : option (list Segment)) (now : Date)
  : Response + ObjectId :=
  let token := authorization ≫= (λ parts, parts !! 1%nat) in
  match token with
  | None | Some (Text EmptyString) => inl (json 401 (JError "Authentication required"))
  | Some (Text _) => inl (json 401 (JError "Invalid or expired token"))
  | Some (Token t) =>
      match jsonwebtoken.verify t JWT_SECRET now with
      | Some decoded => inr (jwt_userId decoded)
      | None => inl (json 401 (JError "Invalid or expired token"))
      end
  end.

(** [POST /auth/signup]. *)
Definition signup (b : SignupBody.t) (salt : string) (newId : ObjectId) (now : Date)
    (users : gmap ObjectId User) : Response * gmap ObjectId User :=
  match Users.findOneByEmail schema (SignupBody.email b) users with
  | Some existingUser => (json 400 (JError "User already exists"), users)
  | None =>
      let hashedPassword := bcrypt_hash (SignupBody.password b) salt in
      match Users.create schema newId (SignupBody.name b) (SignupBody.email b)
              hashedPassword users with
      | Some (user, users') =>
          match generateToken (user_id user) now with
          | Some token =>
              (json 201 (JMsgTokenUser "User created successfully" token (publicUser user)),
               users')
          | None => (json 500 (JError "Signup failed"), users')
          end
      | None => (json 500 (JError "Signup failed"), users)
      end
  end.

(** [POST /auth/login]. *)
Definition login (b : LoginBody.t) (now : Date) (users : gmap ObjectId User) : Response :=
  match Users.findOneByEmail schema (LoginBody.email b) users with
  | None => json 401 (JError "Invalid email or password")
  | Some user =>
      if bcrypt_compare (LoginBody.password b) (password user) then
        match generateToken (user_id user) now with
        | Some token => ok (JMsgTokenUser "Login successful" token (publicUser user))
        | None => json 500 (JError "Login failed")
        end
      else json 401 (JError "Invalid email or password")
  end.

(** [POST /auth/logout]: the handler reads and writes nothing; the client is
    expected to drop its token. *)
Definition logout (users : gmap ObjectId User) (notes : gmap ObjectId Note)
  : Response * (gmap ObjectId User * gmap ObjectId Note) :=
  (ok (JMsg "Logged out successfully"), (users, notes)).

(** A guarded route: [app.METHOD(path, requireAuth, handler)]. *)
Definition guarded {S : Type} (authorization : option (list Segment)) (now : Date)
    (handler : ObjectId → S → Response * S) (s : S) : Response * S :=
  match requireAuth authorization now with
  | inl r => (r, s)
  | inr userId => handler userId s
  end.

(** [GET /auth/me]. *)
Definition me (authorization : option (list Segment)) (now : Date)
    (users : gmap ObjectId User) : Response :=
  match requireAuth authorization now with
  | inl r => r
  | inr userId =>
      match users !! userId with
      | None => json 404 (JError "User not found")
      | Some user => ok (JUser (publicUser user))
      end
  end.

End Server.

End Jwt.

(** ** [unnamed/part_001], first document: the express-session server

    express-session keeps, per session id, the data the handlers put on
    [req.session]; here the store maps a session id to its [userId].
    [sid] is the id of the request's session (from its cookie, or drawn for
    a new session). *)

Module Session.

Section Server.

Variable schema : UserSchema.t.
Variable bcrypt_compare : string → string → bool.

(** [req.session.userId] as the session middleware loads it. *)
Definition sessionUserId (sid : option string) (sessions : gmap string ObjectId)
  : option ObjectId :=
  sid ≫= (λ k, sessions !! k).

(** [requireAuth]. *)
Definition requireAuth (sid : option string) (sessions : gmap string ObjectId)
  : Response + ObjectId :=
  match sessionUserId sid sessions with
  | None => inl (json 401 (JError "Please log in"))
  | Some userId => inr userId
  end.

(** [POST /auth/login]. *)
Definition login (b : LoginBody.t) (sid : string) (users : gmap ObjectId User)
    (sessions : gmap string ObjectId) : Response * gmap string ObjectId :=
  match Users.findOneByEmail schema (LoginBody.email b) users with
  | None => (json 401 (JError "Invalid email or password"), sessions)
  | Some user =>
      if bcrypt_compare (LoginBody.password b) (password user) then
        (ok (JMsgUser "Login successful" (publicUser user)),
         <[sid := user_id user]> sessions)
      else (json 401 (JError "Invalid email or password"), sessions)
  end.

(** [POST /auth/logout]: [req.session.destroy]. *)
Definition logout (sid : option string) (sessions : gmap string ObjectId)
  : Response * gmap string ObjectId :=
  (ok (JMsg "Logged out successfully"),
   match sid with
   | Some k => delete k sessions
   | None => sessions
   end).

Variable bcrypt_hash : string → string → string.

(** [POST /auth/signup]: the new user is logged in on the request's
    session. *)
Definition signup (b : SignupBody.t) (salt : string) (newId : ObjectId) (sid : string)
    (users : gmap ObjectId User) (sessions : gmap string ObjectId)
  : Response * (gmap ObjectId User * gmap string ObjectId) :=
  match Users.findOneByEmail schema (SignupBody.email b) users with
  | Some existingUser => (json 400 (JError "User already exists"), (users, sessions))
  | None =>
      let hashedPassword := bcrypt_hash (SignupBody.password b) salt in
      match Users.create schema newId (SignupBody.name b) (SignupBody.email b)
              hashedPassword users with
      | Some (user, users') =>
          (json 201 (JMsgUser "User created successfully" (publicUser user)),
           (users', <[sid := user_id user]> sessions))
      | None => (json 500 (JError "Signup failed"), (users, sessions))
      end
  end.

(** [GET /auth/session].  The handler reads [user._id] without a null
    check: a session whose user is gone ends in the [catch] branch. *)
Definition session (sid : option string) (users : gmap ObjectId User)
    (sessions : gmap string ObjectId) : Response :=
  match sessionUserId sid sessions with
  | None => json 401 (JError "No active session")
  | Some userId =>
      match users !! userId with
      | Some user => ok (JUser (publicUser user))
      | None => json 500 (JError "Session check failed")
      end
  end.

End Server.

End Session.

(** ** [server.js], second document: session server, user id in the path

    Notes are created in the [Note] collection, while
    [GET /notes/:userId/:noteId] reads the array embedded in the user
    document.  [session] is [req.session.userId]. *)

Module Legacy.

Definition requireAuth (session : option ObjectId) : Response + ObjectId :=
  match session with
  | None => inl (json 401 (JError "Unauthorized"))
  | Some userId => inr userId
  end.

(** [POST /notes/:userId]; the schema defaults fill what the handler does
    not pass. *)
Definition createNote (session : option ObjectId) (userId : ObjectId)
    (title_ content_ : option string) (newId : ObjectId) (now : Date)
    (notes : gmap ObjectId Note) : Response * gmap ObjectId Note :=
  match requireAuth session with
  | inl r => (r, notes)
  | inr sessionUserId =>
      if negb (sessionUserId =? userId)%nat then (json 403 (JError "Forbidden"), notes)
      else
        match title_, notes !! newId with
        | Some t, None =>
            if Js.truthy (Js.trim t) then
              let note :=
                {| _id := newId; title := Js.trim t;
                   content := Js.trim (default EmptyString content_);
                   color := "#ffffff"; category := "General";
                   isPinned := false; isFavorite := false; isArchived := false;
                   user := userId; createdAt := now; updatedAt := now |} in
              (json 201 (JNote note), <[newId := note]> notes)
            else (json 400 (JError "Could not create note"), notes)
        | _, _ => (json 400 (JError "Could not create note"), notes)
        end
  end.

(** [GET /notes/:userId]. *)
Definition getNotes (session : option ObjectId) (userId : ObjectId)
    (notes : gmap ObjectId Note) : Response :=
  match requireAuth session with
  | inl r => r
  | inr _ =>
      json 200 (JNotes (Mongoose.sort Mongoose.byCreatedDesc
                          (Mongoose.find (λ n, (user n =? userId)%nat) notes)))
  end.

(** [user.notes.id(noteId)] on the embedded array. *)
Definition subdocById (noteId : ObjectId) (l : list SubNote) : option SubNote :=
  List.find (λ n, (sub_id n =? noteId)%nat) l.

(** [GET /notes/:userId/:noteId]. *)
Definition getNote (session : option ObjectId) (userId noteId : ObjectId)
    (users : gmap ObjectId User) : Response :=
  match requireAuth session with
  | inl r => r
  | inr _ =>
      match users !! userId with
      | None => json 404 (JMsg "User not found")
      | Some user =>
          match subdocById noteId (notes user) with
          | None => json 404 (JMsg "Note not found")
          | Some note => json 200 (JSubNote note)
          end
      end
  end.

(** [DELETE /notes/:userId/:noteId]. *)
Definition deleteNote (session : option ObjectId) (userId noteId : ObjectId)
    (notes : gmap ObjectId Note) : Response * gmap ObjectId Note :=
  match requireAuth session with
  | inl r => (r, notes)
  | inr sessionUserId =>
      if negb (sessionUserId =? userId)%nat then (json 403 (JError "Forbidden"), notes)
      else
        let '(_, notes') := Mongoose.deleteOne noteId (λ _, true) notes in
        (ok JSuccess, notes')
  end.

End Legacy.

(** ** [unnamed/part_000]: notes embedded in the user document, no sessions *)

Module Embedded.

Section Server.

Variable schema : UserSchema.t.
Variable bcrypt_compare : string → string → bool.

(** [POST /auth/login]. *)
Definition login (b : LoginBody.t) (users : gmap ObjectId User) : Response :=
  match Users.findOneByEmail schema (LoginBody.email b) users with
  | None => json 409 (JMsg "User doesn't exist")
  | Some user =>
      if bcrypt_compare (LoginBody.password b) (password user) then
        ok (JUserNotes (publicUser user) (notes user))
      else json 401 (JMsg "Invalid email or password")
  end.

Variable bcrypt_hash : string → string → string.

(** [POST /auth/signup]; [salt] is what [bcrypt.genSalt(10)] drew. *)
Definition signup (b : SignupBody.t) (salt : string) (newId : ObjectId)
    (users : gmap ObjectId User) : Response * gmap ObjectId User :=
  match Users.findOneByEmail schema (SignupBody.email b) users with
  | Some userExists => (json 409 (JMsg "User already exists"), users)
  | None =>
      let hashedPassword := bcrypt_hash (SignupBody.password b) salt in
      match Users.create schema newId (SignupBody.name b) (SignupBody.email b)
              hashedPassword users with
      | Some (user, users') => (json 201 (JUser (publicUser user)), users')
      | None => (json 500 (JMsg "Server Error"), users)
      end
  end.

End Server.

Definition withNotes (l : list SubNote) (u : User) : User :=
  {| user_id := user_id u; name := name u; email := email u; password := password u;
     notes := l |}.

(** [PUT /notes/:userId/:noteId]: [field = supplied || field], then
    [user.save()]. *)
Definition updateNote (userId noteId : ObjectId) (title_ content_ color_ : option string)
    (now : Date) (users : gmap ObjectId User) : Response * gmap ObjectId User :=
  match users !! userId with
  | None => (json 404 (JMsg "User not found"), users)
  | Some user =>
      match Legacy.subdocById noteId (notes user) with
      | None => (json 404 (JMsg "Note not found"), users)
      | Some note =>
          let edited :=
            {| sub_id := sub_id note;
               sub_title := Js.or title_ (sub_title note);
               sub_content := Js.or content_ (sub_content note);
               sub_color := Js.or color_ (sub_color note);
               sub_createdAt := sub_createdAt note;
               sub_updatedAt := sub_updatedAt note |} in
          let saved :=
            if decide (edited = note) then edited
            else {| sub_id := sub_id edited; sub_title := sub_title edited;
                    sub_content := sub_content edited; sub_color := sub_color edited;
                    sub_createdAt := sub_createdAt edited; sub_updatedAt := now |} in
          let notes' :=
            List.map (λ n, if (sub_id n =? noteId)%nat then saved else n) (notes user) in
          (json 200 (JMsgSubNote "Note updated successfully" saved),
           <[userId := withNotes notes' user]> users)
      end
  end.

(** [DELETE /notes/:userId/:noteId]: [user.notes.pull({ _id: noteId })]. *)
Definition deleteNote (userId noteId : ObjectId) (users : gmap ObjectId User)
  : Response * gmap ObjectId User :=
  match users !! userId with
  | None => (json 404 (JMsg "User not found"), users)
  | Some user =>
      match Legacy.subdocById noteId (notes user) with
      | None => (json 404 (JMsg "Note not found"), users)
      | Some _ =>
          let notes' := List.filter (λ n, negb (sub_id n =? noteId)%nat) (notes user) in
          (json 200 (JMsg "Note deleted successfully"),
           <[userId := withNotes notes' user]> users)
      end
  end.

(** The comparator [(a, b) => b.createdAt - a.createdAt]. *)
Definition subByCreatedDesc (a b : SubNote) : Prop := (sub_createdAt b ≤ sub_createdAt a)%Z.

#[global] Instance subByCreatedDesc_dec a b : Decision (subByCreatedDesc a b).
Proof. unfold subByCreatedDesc. apply _. Defined.

(** [GET /notes/:userId].  For a missing user the 404 is sent first (the
    handler then throws on [user.notes]); it is the response the client
    gets.  [Array.prototype.sort] is modelled by a stable merge sort. *)
Definition getNotes (userId : ObjectId) (users : gmap ObjectId User) : Response :=
  match users !! userId with
  | None => json 404 (JMsg "User not found")
  | Some user => json 200 (JSubNotes (merge_sort subByCreatedDesc (notes user)))
  end.

(** [GET /notes/:userId/:noteId]. *)
Definition getNote (userId noteId : ObjectId) (users : gmap ObjectId User) : Response :=
  match users !! userId with
  | None => json 404 (JMsg "User not found")
  | Some user =>
      match Legacy.subdocById noteId (notes user) with
      | None => json 404 (JMsg "Note not found")
      | Some note => json 200 (JSubNote note)
      end
  end.

End Embedded.

(** ** [unnamed/part_001], second document: only [GET /notes] and [POST /notes] *)

Module Recent.

(** [GET /notes], behind [requireAuth]. *)
Definition getNotes (userId : ObjectId) (notes : gmap ObjectId Note) : Response :=
  ok (JNotes (Mongoose.sort Mongoose.byCreatedDesc
                (Mongoose.find (λ n, (user n =? userId)%nat) notes))).

(** [POST /notes], behind [requireAuth]. *)
Definition createNote (userId : ObjectId) (title_ content_ : option string)
    (newId : ObjectId) (now : Date) (notes : gmap ObjectId Note)
  : Response * gmap ObjectId Note :=
  match title_, notes !! newId with
  | Some t, None =>
      if Js.truthy (Js.trim t) then
        let note :=
          {| _id := newId; title := Js.trim t;
             content := Js.trim (default EmptyString content_);
             color := "#ffffff"; category := "General";
             isPinned := false; isFavorite := false; isArchived := false;
             user := userId; createdAt := now; updatedAt := now |} in
        (json 201 (JNote note), <[newId := note]> notes)
      else (json 500 (JError "Failed to create note"), notes)
  | _, _ => (json 500 (JError "Failed to create note"), notes)
  end.

End Recent.

(** * What the specification asks *)

(** The order the specification asks of a listing: no unpinned note before a
    pinned one, and among notes with the same pinned flag the later
    [createdAt] first. *)
Definition pinnedFirstThenRecent (l : list Note) : Prop :=
  ∀ i j a b, l !! i = Some a → l !! j = Some b → i < j →
    (isPinned b = true → isPinned a = true) ∧
    (isPinned a = isPinned b → (createdAt b ≤ createdAt a)%Z).

(** The boolean the [isArchived] query parameter stands for: absent, it
    defaults to the string ["false"]; only the string ["true"] is true. *)
Definition archivedFlag (query : Query.t) : bool :=
  String.eqb (default "false" (Query.isArchived query)) "true".

Definition passesSearch (regex : string → option (string → bool)) (query : Query.t)
    (n : Note) : Prop :=
  match Query.search query with
  | Some s =>
      if Js.truthy s then ∃ re, regex s = Some re ∧ re (title n) || re (content n) = true
      else True
  | None => True
  end.

Definition passesCategory (query : Query.t) (n : Note) : Prop :=
  match Query.category query with
  | Some cat => if Js.truthy cat then category n = Js.trim cat else True
  | None => True
  end.

Definition stored (notes : gmap ObjectId Note) (n : Note) : Prop :=
  ∃ k, notes !! k = Some n.

(** The listing as the claim words it: exactly the caller's notes whose
    [isArchived] equals the flag. *)
Definition listsExactlyByArchived (regex : string → option (string → bool))
    (userId : ObjectId) (query : Query.t) (notes : gmap ObjectId Note) : Prop :=
  ∀ l, body (Notes.getNotes regex userId query notes) = JNotes l →
    ∀ n, n ∈ l ↔ stored notes n ∧ user n = userId ∧ isArchived n = archivedFlag query.

Definition notFound : Response := json 404 (JError "Note not found").

(** One record, and only one, carries the email [E]. *)
Definition exactlyOneRecord (E : string) (users : gmap ObjectId User) : Prop :=
  ∃ k u, users !! k = Some u ∧ email u = E ∧
    ∀ k' u', users !! k' = Some u' → email u' = E → k' = k.

(** The invariant of the specification: an archived note is not pinned. *)
Definition archivedNotPinned (n : Note) : Prop := isArchived n = true → isPinned n = false.

(** The update as the claim words it, the time stamps left aside: each
    field is the supplied value when one is supplied and the prior value
    otherwise. *)
Definition changesExactlySupplied (b : Fields.t) (before after : Note) : Prop :=
  title after = default (title before) (Fields.title b) ∧
  content after = default (content before) (Fields.content b) ∧
  color after = default (color before) (Fields.color b) ∧
  category after = default (category before) (Fields.category b) ∧
  isPinned after = default (isPinned before) (Fields.isPinned b) ∧
  isFavorite after = default (isFavorite before) (Fields.isFavorite b) ∧
  isArchived after = default (isArchived before) (Fields.isArchived b) ∧
  user after = user before ∧ _id after = _id before.

Definition unpinned (n : Note) : Prop := isPinned n = false.

(** * Concrete data for the runs below *)

Module Fixture.

Definition alice : ObjectId := 7.
Definition bob : ObjectId := 8.

(** A server that rejects every pattern; no run below passes [search]. *)
Definition noRegex : string → option (string → bool) := λ _, None.

Definition noFilter : Query.t := Query.mk None None None.

Definition T1 : Note :=
  {| _id := 1; title := "T1"; content := EmptyString; color := "#ffffff";
     category := "General"; isPinned := false; isFavorite := false; isArchived := false;
     user := alice; createdAt := 10; updatedAt := 10 |}.

Definition T2 : Note :=
  {| _id := 2; title := "T2"; content := EmptyString; color := "#ffffff";
     category := "General"; isPinned := false; isFavorite := false; isArchived := false;
     user := alice; createdAt := 20; updatedAt := 20 |}.

(** [T1] after [PATCH /notes/1/pin] at time 30. *)
Definition T1_pinned : Note :=
  {| _id := 1; title := "T1"; content := EmptyString; color := "#ffffff";
     category := "General"; isPinned := true; isFavorite := false; isArchived := false;
     user := alice; createdAt := 10; updatedAt := 30 |}.

(** Alice posts [{title: "T1"}] at time 10 and [{title: "T2"}] at time 20. *)
Definition twoNotes : gmap ObjectId Note :=
  (Notes.createNote alice (CreateBody.mk (Some "T2") None None None) 2 20
     (Notes.createNote alice (CreateBody.mk (Some "T1") None None None) 1 10 ∅).2).2.

(** ... and pins T1 at time 30. *)
Definition pinnedT1 : gmap ObjectId Note := (Notes.togglePin alice 1 30 twoNotes).2.

End Fixture.

Module AuthFixture.

Definition env : Env.t := Env.mk (Some "secret") None.

(** Stand-ins for bcrypt in the concrete runs. *)
Definition bcrypt_hash (password salt : string) : string := "$2b$10$" ++ password.
Definition bcrypt_compare (password hash : string) : bool :=
  String.eqb ("$2b$10$" ++ password) hash.

Definition first : SignupBody.t := SignupBody.mk "A" "a@x.com" "p1".
Definition variant : SignupBody.t := SignupBody.mk "A" " A@X.com " "p1".

Definition userA : User :=
  {| user_id := 1; name := "A"; email := "a@x.com"; password := "$2b$10$p1"; notes := [] |}.
Definition userA' : User :=
  {| user_id := 2; name := "A"; email := " A@X.com "; password := "$2b$10$p1"; notes := [] |}.

(** The collection after [first] has signed up. *)
Definition registered (schema : UserSchema.t) : gmap ObjectId User :=
  (Jwt.signup env schema bcrypt_hash first "salt" 1 0 ∅).2.

Definition unknown : LoginBody.t := LoginBody.mk "b@x.com" "p1".
Definition wrong : LoginBody.t := LoginBody.mk "a@x.com" "p2".

End AuthFixture.

Module TokenFixture.

(** The token the JWT server issues to user 1 at time 0. *)
Definition token : Jwt :=
  {| jwt_userId := 1; iat := 0; exp := 604800; signedWith := "secret" |}.

Definition bearer : option (list Segment) := Some [Text "Bearer"; Token token].

End TokenFixture.

Module PinFixture.

(** T1 after [PATCH /notes/1/archive] at time 30. *)
Definition T1_archived : Note :=
  {| _id := 1; title := "T1"; content := EmptyString; color := "#ffffff";
     category := "General"; isPinned := false; isFavorite := false; isArchived := true;
     user := Fixture.alice; createdAt := 10; updatedAt := 30 |}.

(** ... and then after [PATCH /notes/1/pin] at time 40. *)
Definition T1_archived_pinned : Note :=
  {| _id := 1; title := "T1"; content := EmptyString; color := "#ffffff";
     category := "General"; isPinned := true; isFavorite := false; isArchived := true;
     user := Fixture.alice; createdAt := 10; updatedAt := 40 |}.

Definition archivedT1 : gmap ObjectId Note :=
  (Notes.setArchived Fixture.alice 1 None 30 Fixture.twoNotes).2.

(** The pinned T1 after [PUT /notes/1] with [{ isArchived: true }] at time 40. *)
Definition T1_unpinned_by_archive : Note :=
  {| _id := 1; title := "T1"; content := EmptyString; color := "#ffffff";
     category := "General"; isPinned := false; isFavorite := false; isArchived := true;
     user := Fixture.alice; createdAt := 10; updatedAt := 40 |}.

(** [GET /notes?isArchived=true]. *)
Definition onlyArchived : Query.t := Query.mk None None (Some "true").

Definition archiveOnly : Fields.t :=
  Fields.mk None None None None None None (Some true).

Definition pinOnly : Fields.t :=
  Fields.mk None None None None (Some true) None None.

Definition emptyTitle : Fields.t :=
  Fields.mk (Some EmptyString) None None None None None None.

Definition T1_untitled : Note :=
  {| _id := 1; title := EmptyString; content := EmptyString; color := "#ffffff";
     category := "General"; isPinned := false; isFavorite := false; isArchived := false;
     user := Fixture.alice; createdAt := 10; updatedAt := 40 |}.

End PinFixture.

Module LegacyFixture.

(** Alice, logged in, posts [{title: "T1"}] to [/notes/7] at time 10. *)
Definition notes : gmap ObjectId Note :=
  (Legacy.createNote (Some Fixture.alice) Fixture.alice (Some "T1") None 1 10 ∅).2.

End LegacyFixture.

Module EmbeddedFixture.

Definition note : SubNote :=
  {| sub_id := 5; sub_title := "T"; sub_content := "C"; sub_color := "#ffffff";
     sub_createdAt := 10; sub_updatedAt := 10 |}.

Definition users : gmap ObjectId User :=
  {[ 1 := {| user_id := 1; name := "A"; email := "a@x.com"; password := "$2b$10$p1";
             notes := [note] |} ]}.

End EmbeddedFixture.

(** * Invariants of the collections *)

(** Every note is stored under its own [_id]. *)
Definition wellKeyed (notes : gmap ObjectId Note) : Prop :=
  map_Forall (λ k n, _id n = k) notes.

(** Every user is stored under its own id. *)
Definition usersWellKeyed (users : gmap ObjectId User) : Prop :=
  map_Forall (λ k u, user_id u = k) users.

(** The unique index on [email]. *)
Definition emailsUnique (users : gmap ObjectId User) : Prop :=
  ∀ k1 k2 u1 u2, users !! k1 = Some u1 → users !! k2 = Some u2 →
    email u1 = email u2 → k1 = k2.

(** Two notes that differ at most in [updatedAt]. *)
Definition sameButUpdatedAt (a b : Note) : Prop :=
  _id a = _id b ∧ title a = title b ∧ content a = content b ∧ color a = color b ∧
  category a = category b ∧ isPinned a = isPinned b ∧ isFavorite a = isFavorite b ∧
  isArchived a = isArchived b ∧ user a = user b ∧ createdAt a = createdAt b.

(** The requests of a run: who asks, what, and when. *)
Definition serve (requests : list (ObjectId * Notes.Mutation * Date))
    (notes : gmap ObjectId Note) : gmap ObjectId Note :=
  foldl (λ c '(userId, m, now), (Notes.route userId m now c).2) notes requests.

(** A request that can leave an archived note pinned: the pin toggle, and
    an update that pins without saying anything about [isArchived]. *)
Definition mayPin (m : Notes.Mutation) : bool :=
  match m with
  | Notes.TogglePin _ => true
  | Notes.Update _ b =>
      bool_decide (Fields.isArchived b = None ∧ Fields.isPinned b = Some true)
  | _ => false
  end.

(** * Further concrete data *)

Module RunFixture.

Definition createT1 : Notes.Mutation :=
  Notes.Create (CreateBody.mk (Some "T1") None None None) 1.

Definition createT2 : Notes.Mutation :=
  Notes.Create (CreateBody.mk (Some "T2") None None None) 2.

(** Bob tries to delete Alice's T1 and to pin her T2. *)
Definition bobsRequests : list (ObjectId * Notes.Mutation * Date) :=
  [ (Fixture.bob, Notes.Delete 1, 30%Z);
    (Fixture.bob, Notes.Update 2 PinFixture.pinOnly, 40%Z) ].

(** Alice creates T1 and archives it. *)
Definition createAndArchive : list (ObjectId * Notes.Mutation * Date) :=
  [ (Fixture.alice, createT1, 10%Z);
    (Fixture.alice, Notes.SetArchived 1 None, 30%Z) ].

Definition blankTitle : CreateBody.t := CreateBody.mk (Some "   ") None None None.

Definition noSecret : Env.t := Env.mk None None.


End RunFixture.

(** * Properties *)

(** ** Collections *)

Section CollectionFacts.
Context {Doc : Type}.
Implicit Types (c : gmap ObjectId Doc) (rest : Doc → bool).

Lemma findOne_Some id rest c d :
  Mongoose.findOne id rest c = Some d ↔ c !! id = Some d ∧ rest d = true.
Proof.
  unfold Mongoose.findOne. destruct (c !! id) as [d'|] eqn:E.
  - destruct (rest d') eqn:R; split.
    + intros [= <-]. done.
    + intros [[= <-] _]. done.
    + done.
    + intros [[= <-] R']. congruence.
  - split; [done | intros [? _]; done].
Qed.

Lemma findOne_None id rest c :
  Mongoose.findOne id rest c = None ↔
  c !! id = None ∨ ∃ d, c !! id = Some d ∧ rest d = false.
Proof.
  unfold Mongoose.findOne. destruct (c !! id) as [d'|] eqn:E.
  - destruct (rest d') eqn:R; split; try done.
    + intros [? | (d & [= <-] & ?)]; [done | congruence].
    + intros _. right. eauto.
  - split; auto.
Qed.

Lemma findOne_absent id rest c : c !! id = None → Mongoose.findOne id rest c = None.
Proof. intros. apply findOne_None. auto. Qed.

Lemma findOne_after_delete id rest c :
  Mongoose.findOne id rest (delete id c) = None.
Proof. apply findOne_absent, lookup_delete_eq. Qed.

Lemma find_elem_of (p : Doc → bool) c d :
  d ∈ Mongoose.find p c ↔ (∃ k, c !! k = Some d) ∧ p d = true.
Proof.
  unfold Mongoose.find. rewrite list_elem_of_In, filter_In, <- list_elem_of_In.
  rewrite list_elem_of_fmap. split.
  - intros [([k d'] & -> & Hin) Hp]. split; [|done].
    exists k. by apply elem_of_map_to_list.
  - intros [[k Hk] Hp]. split; [|done].
    exists (k, d). split; [done|]. by apply elem_of_map_to_list.
Qed.

End CollectionFacts.

(** ** The order of [GET /notes] *)

#[global] Instance byPinnedThenCreatedDesc_trans : Transitive Mongoose.byPinnedThenCreatedDesc.
Proof.
  intros a b c. unfold Mongoose.byPinnedThenCreatedDesc.
  intros [[? ?]|[? ?]] [[? ?]|[? ?]]; try congruence.
  - left. split; congruence.
  - left. split; congruence.
  - right. split; [congruence | lia].
Qed.

#[global] Instance byPinnedThenCreatedDesc_total : Total Mongoose.byPinnedThenCreatedDesc.
Proof.
  intros a b. unfold Mongoose.byPinnedThenCreatedDesc.
  destruct (isPinned a) eqn:Ha, (isPinned b) eqn:Hb;
    try (destruct (Z.le_ge_cases (createdAt a) (createdAt b)); auto; fail); auto.
Qed.

#[global] Instance byCreatedDesc_trans : Transitive Mongoose.byCreatedDesc.
Proof. intros a b c. unfold Mongoose.byCreatedDesc. lia. Qed.

#[global] Instance byCreatedDesc_total : Total Mongoose.byCreatedDesc.
Proof. intros a b. unfold Mongoose.byCreatedDesc. lia. Qed.

Lemma StronglySorted_lookup {A} (R : relation A) (l : list A) i j a b :
  StronglySorted R l → l !! i = Some a → l !! j = Some b → i < j → R a b.
Proof.
  intros Hs. revert i j. induction Hs as [|x l Hs IH Hall]; intros i j Hi Hj Hlt.
  - by rewrite lookup_nil in Hi.
  - destruct j as [|j]; [lia|]. simpl in Hj. destruct i as [|i]; simpl in Hi.
    + injection Hi as ->. rewrite Forall_forall in Hall.
      apply Hall. by eapply list_elem_of_lookup_2.
    + eapply IH; eauto. lia.
Qed.

Lemma sorted_pinnedFirstThenRecent (l : list Note) :
  pinnedFirstThenRecent (Mongoose.sort Mongoose.byPinnedThenCreatedDesc l).
Proof.
  intros i j a b Hi Hj Hlt.
  assert (Mongoose.byPinnedThenCreatedDesc a b) as [[Ha Hb]|[Hab Hle]].
  { eapply StronglySorted_lookup; eauto.
    unfold Mongoose.sort. apply StronglySorted_merge_sort; apply _. }
  - split; congruence.
  - split; [congruence | done].
Qed.

(** C8: for every owner and every query, the notes [GET /notes] returns have
    all pinned notes before all unpinned ones and, within each of the two
    groups, the most recently created first. *)
Theorem getNotes_pinned_first_then_recent
    (regex : string → option (string → bool)) (userId : ObjectId) (query : Query.t)
    (notes : gmap ObjectId Note) (l : list Note) :
  body (Notes.getNotes regex userId query notes) = JNotes l →
  pinnedFirstThenRecent l.
Proof.
  unfold Notes.getNotes.
  destruct (match Query.search query with
            | Some search => _ | None => _ end) as [matches|]; simpl; [|done].
  intros [= <-]. apply sorted_pinnedFirstThenRecent.
Qed.

(** ** What [GET /notes] returns *)

Lemma archivedFlag_true (query : Query.t) :
  archivedFlag query = true ↔ Query.isArchived query = Some "true".
Proof.
  unfold archivedFlag. destruct (Query.isArchived query) as [s|]; simpl.
  - rewrite String.eqb_eq. split; congruence.
  - split; discriminate.
Qed.

Lemma elem_of_sort (R : relation Note) `{∀ a b, Decision (R a b)} (l : list Note) n :
  n ∈ Mongoose.sort R l ↔ n ∈ l.
Proof. unfold Mongoose.sort. by rewrite merge_sort_Permutation. Qed.

(** C10 (amended): the [isArchived] parameter defaults to false and is true
    only for the string ["true"]; the listing holds exactly the caller's
    notes whose [isArchived] equals that boolean and that pass the [search]
    and [category] filters when these are given.  So no listing mixes
    archived and unarchived notes. *)
Theorem getNotes_partitions_by_isArchived
    (regex : string → option (string → bool)) (userId : ObjectId) (query : Query.t)
    (notes : gmap ObjectId Note) (l : list Note) :
  body (Notes.getNotes regex userId query notes) = JNotes l →
  (Query.isArchived query = None → archivedFlag query = false) ∧
  (archivedFlag query = true ↔ Query.isArchived query = Some "true") ∧
  ∀ n, n ∈ l ↔
    stored notes n ∧ user n = userId ∧ isArchived n = archivedFlag query ∧
    passesSearch regex query n ∧ passesCategory query n.
Proof.
  intros Hl. split; [by intros H; unfold archivedFlag; rewrite H|].
  split; [apply archivedFlag_true|]. intros n.
  revert Hl. unfold Notes.getNotes, passesSearch, passesCategory, stored.
  fold (archivedFlag query).
  destruct (Query.search query) as [s|]; [destruct (Js.truthy s);
    [destruct (regex s) as [re|]|]|]; simpl; try done; intros [= <-];
  rewrite elem_of_sort, find_elem_of, !andb_true_iff, eqb_true_iff;
  unfold Notes.ownedBy; rewrite Nat.eqb_eq;
  (destruct (Query.category query) as [cat|]; [destruct (Js.truthy cat)|]);
  rewrite ?String.eqb_eq; split; intros; destruct_and?; repeat split; eauto;
  try congruence;
  match goal with
  | H : ∃ re0, Some _ = Some re0 ∧ _ |- _ => by destruct H as (? & [= <-] & ?)
  end.
Qed.

(** ** Concrete runs *)

Example twoNotes_stored :
  Fixture.twoNotes !! 1 = Some Fixture.T1 ∧ Fixture.twoNotes !! 2 = Some Fixture.T2.
Proof. split; vm_compute; reflexivity. Qed.

(** The scenario of the specification: create T1, create T2, pin T1; the
    listing is [T1, T2]. *)
Example scenario_pin_T1_lists_T1_first :
  Notes.getNotes Fixture.noRegex Fixture.alice Fixture.noFilter Fixture.pinnedT1
  = ok (JNotes [Fixture.T1_pinned; Fixture.T2]).
Proof. vm_compute. reflexivity. Qed.

(** Before the pin the later note comes first. *)
Example scenario_unpinned_lists_T2_first :
  Notes.getNotes Fixture.noRegex Fixture.alice Fixture.noFilter Fixture.twoNotes
  = ok (JNotes [Fixture.T2; Fixture.T1]).
Proof. vm_compute. reflexivity. Qed.

Lemma getNotes_pinned_first_then_recent_witness :
  body (Notes.getNotes Fixture.noRegex Fixture.alice Fixture.noFilter Fixture.pinnedT1)
  = JNotes [Fixture.T1_pinned; Fixture.T2] ∧
  pinnedFirstThenRecent [Fixture.T1_pinned; Fixture.T2].
Proof.
  split.
  - vm_compute. reflexivity.
  - apply (getNotes_pinned_first_then_recent
             Fixture.noRegex Fixture.alice Fixture.noFilter Fixture.pinnedT1).
    vm_compute. reflexivity.
Defined.

(** C10 as worded fails: with [?category=Work] the listing is empty although
    Alice has unarchived notes and the flag is false. *)
Lemma category_filter_omits_unarchived_note :
  ¬ listsExactlyByArchived Fixture.noRegex Fixture.alice
      (Query.mk None (Some "Work") None) Fixture.twoNotes.
Proof.
  intros H.
  assert (Fixture.T1 ∈ @nil Note) as Hin.
  { apply (H []); [vm_compute; reflexivity|].
    split; [exists 1; vm_compute; reflexivity|]. split; reflexivity. }
  by apply not_elem_of_nil in Hin.
Qed.

Lemma getNotes_partitions_by_isArchived_witness :
  body (Notes.getNotes Fixture.noRegex Fixture.alice PinFixture.onlyArchived
          PinFixture.archivedT1) = JNotes [PinFixture.T1_archived] ∧
  (Query.isArchived PinFixture.onlyArchived = None →
     archivedFlag PinFixture.onlyArchived = false) ∧
  (archivedFlag PinFixture.onlyArchived = true ↔
     Query.isArchived PinFixture.onlyArchived = Some "true") ∧
  ∀ n, n ∈ [PinFixture.T1_archived] ↔
    stored PinFixture.archivedT1 n ∧ user n = Fixture.alice ∧
    isArchived n = archivedFlag PinFixture.onlyArchived ∧
    passesSearch Fixture.noRegex PinFixture.onlyArchived n ∧
    passesCategory PinFixture.onlyArchived n.
Proof.
  split.
  - vm_compute. reflexivity.
  - apply (getNotes_partitions_by_isArchived Fixture.noRegex Fixture.alice
             PinFixture.onlyArchived PinFixture.archivedT1 [PinFixture.T1_archived]).
    vm_compute. reflexivity.
Defined.

(** ** Ownership scoping *)

(** Each scoped route answers 404 and leaves the collection alone when the
    query [{ _id: noteId, user: userId }] matches nothing. *)
Lemma scoped_routes_not_found (userId noteId : ObjectId) (notes : gmap ObjectId Note)
    (b : Fields.t) (archive : option bool) (now : Date) :
  Mongoose.findOne noteId (Notes.ownedBy userId) notes = None →
  Notes.getNote userId noteId notes = notFound ∧
  Notes.updateNote userId noteId b now notes = (notFound, notes) ∧
  Notes.deleteNote userId noteId notes = (notFound, notes) ∧
  Notes.togglePin userId noteId now notes = (notFound, notes) ∧
  Notes.setArchived userId noteId archive now notes = (notFound, notes).
Proof.
  intros H.
  unfold Notes.getNote, Notes.updateNote, Notes.deleteNote, Notes.togglePin,
    Notes.setArchived, Mongoose.findOneAndUpdate, Mongoose.deleteOne.
  rewrite H. done.
Qed.

(** X28: on the scoped routes another user's note and a missing note are
    the same 404, for reading, updating, deleting, pinning and archiving. *)
Lemma scoped_routes_hide_other_owners (A B noteId missing : ObjectId) (n : Note)
    (notes : gmap ObjectId Note) (b : Fields.t) (archive : option bool) (now : Date) :
  notes !! noteId = Some n → user n = A → B ≠ A → notes !! missing = None →
  (Notes.getNote B noteId notes = notFound ∧
   Notes.getNote B missing notes = notFound) ∧
  (Notes.updateNote B noteId b now notes = (notFound, notes) ∧
   Notes.updateNote B missing b now notes = (notFound, notes)) ∧
  (Notes.deleteNote B noteId notes = (notFound, notes) ∧
   Notes.deleteNote B missing notes = (notFound, notes)) ∧
  (Notes.togglePin B noteId now notes = (notFound, notes) ∧
   Notes.togglePin B missing now notes = (notFound, notes)) ∧
  (Notes.setArchived B noteId archive now notes = (notFound, notes) ∧
   Notes.setArchived B missing archive now notes = (notFound, notes)).
Proof.
  intros Hn HA HB Hmiss.
  assert (Mongoose.findOne noteId (Notes.ownedBy B) notes = None) as H1.
  { apply findOne_None. right. exists n. split; [done|].
    unfold Notes.ownedBy. apply Nat.eqb_neq. congruence. }
  assert (Mongoose.findOne missing (Notes.ownedBy B) notes = None) as H2
    by by apply findOne_absent.
  destruct (scoped_routes_not_found B noteId notes b archive now H1) as (?&?&?&?&?).
  destruct (scoped_routes_not_found B missing notes b archive now H2) as (?&?&?&?&?).
  done.
Qed.

(** ** Deleting *)

Lemma deleteNote_owned (userId noteId : ObjectId) (n : Note) (notes : gmap ObjectId Note) :
  notes !! noteId = Some n → user n = userId →
  Notes.deleteNote userId noteId notes
  = (ok (JMsg "Note deleted successfully"), delete noteId notes).
Proof.
  intros Hn Hu. unfold Notes.deleteNote, Mongoose.deleteOne.
  assert (Mongoose.findOne noteId (Notes.ownedBy userId) notes = Some n) as ->; [|done].
  apply findOne_Some. split; [done|]. unfold Notes.ownedBy. by apply Nat.eqb_eq.
Qed.

(** On the scoped route a second [DELETE] of the same id is a 404, whatever
    the first one did. *)
Lemma deleteNote_twice (userId noteId : ObjectId) (notes : gmap ObjectId Note) :
  Notes.deleteNote userId noteId (Notes.deleteNote userId noteId notes).2
  = (notFound, (Notes.deleteNote userId noteId notes).2).
Proof.
  unfold Notes.deleteNote at 2 3. unfold Mongoose.deleteOne.
  destruct (Mongoose.findOne noteId (Notes.ownedBy userId) notes) as [d|] eqn:E; simpl.
  - unfold Notes.deleteNote, Mongoose.deleteOne. by rewrite findOne_after_delete.
  - unfold Notes.deleteNote, Mongoose.deleteOne. by rewrite E.
Qed.

Lemma deleteNote_never_existed (userId noteId : ObjectId) (notes : gmap ObjectId Note) :
  notes !! noteId = None → Notes.deleteNote userId noteId notes = (notFound, notes).
Proof.
  intros H. unfold Notes.deleteNote, Mongoose.deleteOne.
  by rewrite (findOne_absent _ _ _ H).
Qed.

(** [DELETE /notes/:userId/:noteId] of [server.js] (second document) answers
    [{ success: true }] to the owner of the path whatever the collection
    holds. *)
Lemma Legacy_deleteNote_always_succeeds (userId noteId : ObjectId)
    (notes : gmap ObjectId Note) :
  (Legacy.deleteNote (Some userId) userId noteId notes).1 = ok JSuccess.
Proof.
  unfold Legacy.deleteNote. simpl. rewrite Nat.eqb_refl. simpl.
  by destruct (Mongoose.deleteOne noteId (λ _, true) notes).
Qed.

(** ** Login *)

Section LoginFacts.

Variable schema : UserSchema.t.
Variable bcrypt_compare : string → string → bool.

(** The JWT server and the session server give one answer to an unknown
    email and to a wrong password. *)
Lemma Jwt_login_failures_alike (env : Env.t) (unknown wrong : LoginBody.t) (u : User)
    (now : Date) (users : gmap ObjectId User) :
  Users.findOneByEmail schema (LoginBody.email unknown) users = None →
  Users.findOneByEmail schema (LoginBody.email wrong) users = Some u →
  bcrypt_compare (LoginBody.password wrong) (password u) = false →
  Jwt.login env schema bcrypt_compare unknown now users
    = json 401 (JError "Invalid email or password") ∧
  Jwt.login env schema bcrypt_compare wrong now users
    = json 401 (JError "Invalid email or password").
Proof. intros H1 H2 H3. unfold Jwt.login. by rewrite H1, H2, H3. Qed.

Lemma Session_login_failures_alike (unknown wrong : LoginBody.t) (u : User)
    (sid : string) (users : gmap ObjectId User) (sessions : gmap string ObjectId) :
  Users.findOneByEmail schema (LoginBody.email unknown) users = None →
  Users.findOneByEmail schema (LoginBody.email wrong) users = Some u →
  bcrypt_compare (LoginBody.password wrong) (password u) = false →
  Session.login schema bcrypt_compare unknown sid users sessions
    = (json 401 (JError "Invalid email or password"), sessions) ∧
  Session.login schema bcrypt_compare wrong sid users sessions
    = (json 401 (JError "Invalid email or password"), sessions).
Proof. intros H1 H2 H3. unfold Session.login. by rewrite H1, H2, H3. Qed.

(** C3: the login of [unnamed/part_000] answers an unknown email with 409
    [User doesn't exist] and a wrong password with 401
    [Invalid email or password]: the caller can tell the two apart. *)
Theorem Embedded_login_tells_unknown_email_from_wrong_password
    (unknown wrong : LoginBody.t) (u : User) (users : gmap ObjectId User) :
  Users.findOneByEmail schema (LoginBody.email unknown) users = None →
  Users.findOneByEmail schema (LoginBody.email wrong) users = Some u →
  bcrypt_compare (LoginBody.password wrong) (password u) = false →
  Embedded.login schema bcrypt_compare unknown users = json 409 (JMsg "User doesn't exist") ∧
  Embedded.login schema bcrypt_compare wrong users
    = json 401 (JMsg "Invalid email or password") ∧
  Embedded.login schema bcrypt_compare unknown users
    ≠ Embedded.login schema bcrypt_compare wrong users.
Proof.
  intros H1 H2 H3. unfold Embedded.login. rewrite H1, H2, H3. done.
Qed.

End LoginFacts.

(** ** Signup *)

Section SignupFacts.

Variable schema : UserSchema.t.

Lemma values_elem_of {A} (m : gmap ObjectId A) (x : A) :
  In x (map_to_list m).*2 ↔ ∃ k, m !! k = Some x.
Proof.
  rewrite <- list_elem_of_In, list_elem_of_fmap. split.
  - intros ([k y] & -> & H). exists k. by apply elem_of_map_to_list.
  - intros [k H]. exists (k, x). split; [done|]. by apply elem_of_map_to_list.
Qed.

Lemma findOneByEmail_Some (e : string) (users : gmap ObjectId User) (u : User) :
  Users.findOneByEmail schema e users = Some u →
  (∃ k, users !! k = Some u) ∧ email u = UserSchema.castEmail schema e.
Proof.
  unfold Users.findOneByEmail. intros H. apply find_some in H as [Hin Heq].
  split; [by apply values_elem_of | by apply String.eqb_eq].
Qed.

Lemma findOneByEmail_None (e : string) (users : gmap ObjectId User) :
  Users.findOneByEmail schema e users = None ↔
  ∀ k u, users !! k = Some u → email u ≠ UserSchema.castEmail schema e.
Proof.
  unfold Users.findOneByEmail. split.
  - intros H k u Hk. apply String.eqb_neq.
    apply (find_none _ _ H). apply values_elem_of. eauto.
  - intros H. destruct (find _ _) as [u|] eqn:E; [|done].
    apply find_some in E as [Hin Heq]. apply values_elem_of in Hin as [k Hk].
    apply String.eqb_eq in Heq. by destruct (H k u Hk).
Qed.

Lemma findOneByEmail_stored (e : string) (users : gmap ObjectId User) (k : ObjectId)
    (u : User) :
  users !! k = Some u → email u = UserSchema.castEmail schema e →
  is_Some (Users.findOneByEmail schema e users).
Proof.
  intros Hk He. destruct (Users.findOneByEmail schema e users) eqn:E; [eauto|].
  rewrite findOneByEmail_None in E. by destruct (E k u Hk).
Qed.

(** A created user is stored under the new id with the cast email, and no
    other record has that email. *)
Lemma create_exactlyOneRecord (newId : ObjectId) (n e p : string) (u : User)
    (users users' : gmap ObjectId User) :
  Users.create schema newId n e p users = Some (u, users') →
  users' = <[newId := u]> users ∧ users !! newId = None ∧
  email u = UserSchema.castEmail schema e ∧
  exactlyOneRecord (UserSchema.castEmail schema e) users'.
Proof.
  unfold Users.create. simpl.
  destruct (_ && _ && _); [|done].
  destruct (users !! newId) eqn:Hfresh; [done|].
  destruct (find _ _) eqn:Hfind; [done|]. intros [= <- <-]. simpl.
  repeat split; try done.
  exists newId. eexists. split; [apply lookup_insert_eq|]. split; [done|].
  intros k' u' Hk' He'. destruct (decide (k' = newId)) as [|Hne]; [done|].
  rewrite lookup_insert_ne in Hk' by done.
  assert (In u' (map_to_list users).*2) as Hin by (apply values_elem_of; eauto).
  apply (find_none _ _ Hfind) in Hin. simpl in Hin.
  apply String.eqb_neq in Hin. done.
Qed.

Variable env : Env.t.
Variable bcrypt_hash : string → string → string.

(** Once an email is registered, [POST /auth/signup] of the JWT server
    refuses every email the schema casts to the registered one, and leaves
    the collection as it is. *)
Lemma signup_existing_email (b : SignupBody.t) (salt : string) (newId : ObjectId)
    (now : Date) (users : gmap ObjectId User) (k : ObjectId) (u : User) :
  users !! k = Some u → email u = UserSchema.castEmail schema (SignupBody.email b) →
  Jwt.signup env schema bcrypt_hash b salt newId now users
  = (json 400 (JError "User already exists"), users).
Proof.
  intros Hk He. unfold Jwt.signup.
  by destruct (findOneByEmail_stored _ _ _ _ Hk He) as [v ->].
Qed.

Lemma signup_created (b : SignupBody.t) (salt : string) (newId : ObjectId) (now : Date)
    (users users' : gmap ObjectId User) (r : Response) :
  Jwt.signup env schema bcrypt_hash b salt newId now users = (r, users') →
  status r = 201 →
  exactlyOneRecord (UserSchema.castEmail schema (SignupBody.email b)) users'.
Proof.
  unfold Jwt.signup.
  destruct (Users.findOneByEmail _ _ _); [by intros [= <- <-]|].
  destruct (Users.create _ _ _ _ _ _) as [[u us]|] eqn:Hc; [|by intros [= <- <-]].
  apply create_exactlyOneRecord in Hc as (-> & _ & _ & Hone).
  by destruct (Jwt.generateToken _ _ _); intros [= <- <-].
Qed.

(** X29: after a successful registration of [first], a registration whose email
    the schema casts to the same string is refused with
    [User already exists], and there is still exactly one record for it. *)
Lemma signup_twice (first second : SignupBody.t) (salt salt' : string)
    (id id' : ObjectId) (now now' : Date) (users users' : gmap ObjectId User)
    (r : Response) :
  Jwt.signup env schema bcrypt_hash first salt id now users = (r, users') →
  status r = 201 →
  UserSchema.castEmail schema (SignupBody.email second)
    = UserSchema.castEmail schema (SignupBody.email first) →
  Jwt.signup env schema bcrypt_hash second salt' id' now' users'
    = (json 400 (JError "User already exists"), users') ∧
  exactlyOneRecord (UserSchema.castEmail schema (SignupBody.email first)) users'.
Proof.
  intros Hs Hr He. pose proof (signup_created _ _ _ _ _ _ _ Hs Hr) as Hone.
  split; [|done]. destruct Hone as (k & u & Hk & Hu & _).
  eapply signup_existing_email; [done|]. congruence.
Qed.

End SignupFacts.

Example normalized_email : UserSchema.castEmail UserSchema.normalized " A@X.com " = "a@x.com".
Proof. reflexivity. Qed.

(** The scenario of the specification: register, then register the same
    email again. *)
Example scenario_register_twice :
  status (Jwt.signup AuthFixture.env UserSchema.normalized AuthFixture.bcrypt_hash
            AuthFixture.first "salt" 1 0 ∅).1 = 201 ∧
  Jwt.signup AuthFixture.env UserSchema.normalized AuthFixture.bcrypt_hash
    AuthFixture.first "salt" 2 1000 (AuthFixture.registered UserSchema.normalized)
  = (json 400 (JError "User already exists"), {[ 1 := AuthFixture.userA ]}).
Proof. split; vm_compute; reflexivity. Qed.

(** Under the schema of [unnamed/part_002] a casing and white-space variant
    of a registered email is refused. *)
Example normalized_schema_refuses_variant :
  Jwt.signup AuthFixture.env UserSchema.normalized AuthFixture.bcrypt_hash
    AuthFixture.variant "salt" 2 1000 (AuthFixture.registered UserSchema.normalized)
  = (json 400 (JError "User already exists"), {[ 1 := AuthFixture.userA ]}).
Proof. vm_compute. reflexivity. Qed.

(** C4: under the schema of [models/User.js], which neither lowercases nor
    trims [email], the variant [" A@X.com "] of the registered ["a@x.com"]
    signs up with 201, and two records then normalize to the same email. *)
Theorem plain_schema_registers_variant_again :
  AuthFixture.registered UserSchema.plain = {[ 1 := AuthFixture.userA ]} ∧
  status (Jwt.signup AuthFixture.env UserSchema.plain AuthFixture.bcrypt_hash
            AuthFixture.variant "salt" 2 1000 (AuthFixture.registered UserSchema.plain)).1
  = 201 ∧
  (Jwt.signup AuthFixture.env UserSchema.plain AuthFixture.bcrypt_hash
     AuthFixture.variant "salt" 2 1000 (AuthFixture.registered UserSchema.plain)).2
  = {[ 1 := AuthFixture.userA; 2 := AuthFixture.userA' ]} ∧
  UserSchema.castEmail UserSchema.normalized (email AuthFixture.userA')
  = UserSchema.castEmail UserSchema.normalized (email AuthFixture.userA).
Proof. repeat split; vm_compute; reflexivity. Qed.

Lemma Embedded_login_tells_unknown_email_from_wrong_password_witness :
  (Users.findOneByEmail UserSchema.plain (LoginBody.email AuthFixture.unknown)
     (AuthFixture.registered UserSchema.plain) = None ∧
   Users.findOneByEmail UserSchema.plain (LoginBody.email AuthFixture.wrong)
     (AuthFixture.registered UserSchema.plain) = Some AuthFixture.userA ∧
   AuthFixture.bcrypt_compare (LoginBody.password AuthFixture.wrong)
     (password AuthFixture.userA) = false) ∧
  Embedded.login UserSchema.plain AuthFixture.bcrypt_compare AuthFixture.unknown
    (AuthFixture.registered UserSchema.plain) = json 409 (JMsg "User doesn't exist") ∧
  Embedded.login UserSchema.plain AuthFixture.bcrypt_compare AuthFixture.wrong
    (AuthFixture.registered UserSchema.plain) = json 401 (JMsg "Invalid email or password") ∧
  Embedded.login UserSchema.plain AuthFixture.bcrypt_compare AuthFixture.unknown
    (AuthFixture.registered UserSchema.plain)
  ≠ Embedded.login UserSchema.plain AuthFixture.bcrypt_compare AuthFixture.wrong
      (AuthFixture.registered UserSchema.plain).
Proof.
  split.
  - repeat split; vm_compute; reflexivity.
  - apply (Embedded_login_tells_unknown_email_from_wrong_password
             UserSchema.plain AuthFixture.bcrypt_compare
             AuthFixture.unknown AuthFixture.wrong AuthFixture.userA
             (AuthFixture.registered UserSchema.plain));
      vm_compute; reflexivity.
Defined.

(** The same two requests against the JWT server's login. *)
Example Jwt_login_same_answer :
  Jwt.login AuthFixture.env UserSchema.plain AuthFixture.bcrypt_compare
    AuthFixture.unknown 0 (AuthFixture.registered UserSchema.plain)
  = Jwt.login AuthFixture.env UserSchema.plain AuthFixture.bcrypt_compare
      AuthFixture.wrong 0 (AuthFixture.registered UserSchema.plain).
Proof. vm_compute. reflexivity. Qed.

(** ** Tokens and sessions *)

Lemma generateToken_Some (env : Env.t) (userId : ObjectId) (issuedAt : Date) (tok : Jwt) :
  Jwt.generateToken env userId issuedAt = Some tok →
  ∃ s, Jwt.JWT_SECRET env = Some s ∧ Js.truthy s = true ∧
    tok = {| jwt_userId := userId; iat := jsonwebtoken.clockTimestamp issuedAt;
             exp := (jsonwebtoken.clockTimestamp issuedAt + Jwt.expiresIn)%Z; signedWith := s |}.
Proof.
  unfold Jwt.generateToken, jsonwebtoken.sign. destruct (Jwt.JWT_SECRET env) as [s|]; [|done].
  destruct (Js.truthy s) eqn:Hs; [|done]. intros [= <-]. eauto.
Qed.

Lemma clock_before (now : Date) (e : Z) :
  (e <=? jsonwebtoken.clockTimestamp now)%Z = false ↔ (now < 1000 * e)%Z.
Proof.
  unfold jsonwebtoken.clockTimestamp. rewrite Z.leb_gt. split.
  - intros H. destruct (Z.lt_ge_cases now (1000 * e)) as [|Hge]; [done|].
    apply Z.div_le_lower_bound in Hge; lia.
  - intros H. apply Z.div_lt_upper_bound; lia.
Qed.

(** C2 (amended): a token issued by [generateToken] expires seven days after
    its issue second; [requireAuth] accepts it at every time strictly before
    the expiry and rejects it at the expiry and ever after.  The logout of
    the JWT server changes nothing on the server, so it does not end that
    validity; the logout of the session server removes the session, and the
    next [requireAuth] on it is refused. *)
Theorem token_valid_until_expiry_session_until_logout
    (env : Env.t) (userId : ObjectId) (issuedAt now : Date) (tok : Jwt) (scheme : Segment)
    (users : gmap ObjectId User) (notes : gmap ObjectId Note)
    (sid : string) (sessions : gmap string ObjectId) :
  Jwt.generateToken env userId issuedAt = Some tok →
  exp tok = (issuedAt / 1000 + 7 * 24 * 60 * 60)%Z ∧
  ((now < 1000 * exp tok)%Z →
     Jwt.requireAuth env (Some [scheme; Token tok]) now = inr userId) ∧
  ((1000 * exp tok ≤ now)%Z →
     Jwt.requireAuth env (Some [scheme; Token tok]) now
     = inl (json 401 (JError "Invalid or expired token"))) ∧
  Jwt.logout users notes = (ok (JMsg "Logged out successfully"), (users, notes)) ∧
  Session.requireAuth (Some sid) (Session.logout (Some sid) sessions).2
  = inl (json 401 (JError "Please log in")).
Proof.
  intros Hgen. apply generateToken_Some in Hgen as (s & Hsecret & Hs & ->).
  cbn [exp]. split; [done|].
  unfold Jwt.requireAuth, jsonwebtoken.verify. cbn [mbind option_bind lookup list_lookup].
  cbn [exp signedWith jwt_userId]. rewrite Hsecret, Hs, String.eqb_refl.
  cbn [andb]. repeat split.
  - intros Hlt. apply clock_before in Hlt. by rewrite Hlt.
  - intros Hge. destruct (_ <=? _)%Z eqn:E; [done|].
    apply clock_before in E. lia.
  - unfold Session.requireAuth, Session.logout, Session.sessionUserId. simpl.
    by rewrite lookup_delete_eq.
Qed.

Lemma token_valid_until_expiry_session_until_logout_witness :
  Jwt.generateToken AuthFixture.env 1 0 = Some TokenFixture.token ∧
  exp TokenFixture.token = (0 / 1000 + 7 * 24 * 60 * 60)%Z ∧
  ((604799999 < 1000 * exp TokenFixture.token)%Z →
     Jwt.requireAuth AuthFixture.env TokenFixture.bearer 604799999 = inr 1) ∧
  ((1000 * exp TokenFixture.token ≤ 604799999)%Z →
     Jwt.requireAuth AuthFixture.env TokenFixture.bearer 604799999
     = inl (json 401 (JError "Invalid or expired token"))) ∧
  Jwt.logout ∅ ∅ = (ok (JMsg "Logged out successfully"), (∅, ∅)) ∧
  Session.requireAuth (Some "sid") (Session.logout (Some "sid") {[ "sid" := 1 ]}).2
  = inl (json 401 (JError "Please log in")).
Proof.
  split; [vm_compute; reflexivity|].
  apply (token_valid_until_expiry_session_until_logout AuthFixture.env 1 0 604799999
           TokenFixture.token (Text "Bearer") ∅ ∅ "sid" {[ "sid" := 1 ]}).
  vm_compute. reflexivity.
Defined.

Example token_accepted_in_last_millisecond :
  Jwt.requireAuth AuthFixture.env TokenFixture.bearer 604799999 = inr 1.
Proof. vm_compute. reflexivity. Qed.

Example token_rejected_at_expiry :
  Jwt.requireAuth AuthFixture.env TokenFixture.bearer 604800000
  = inl (json 401 (JError "Invalid or expired token")).
Proof. vm_compute. reflexivity. Qed.

(** C2 as worded fails on the JWT server: user 1 logs in at time 0, logs out,
    and the token still passes [requireAuth] one second later. *)
Lemma Jwt_token_passes_after_logout :
  Jwt.generateToken AuthFixture.env 1 0 = Some TokenFixture.token ∧
  Jwt.logout (AuthFixture.registered UserSchema.plain) ∅
  = (ok (JMsg "Logged out successfully"), (AuthFixture.registered UserSchema.plain, ∅)) ∧
  Jwt.requireAuth AuthFixture.env TokenFixture.bearer 1000 = inr 1 ∧
  ¬ ∃ r, Jwt.requireAuth AuthFixture.env TokenFixture.bearer 1000 = inl r.
Proof.
  repeat split; try (vm_compute; reflexivity).
  intros [r H]. vm_compute in H. discriminate.
Qed.

(** On the session server the same sequence ends with a refusal. *)
Example Session_logout_ends_session :
  Session.requireAuth (Some "sid")
    (Session.login UserSchema.plain AuthFixture.bcrypt_compare
       (LoginBody.mk "a@x.com" "p1") "sid" (AuthFixture.registered UserSchema.plain) ∅).2
  = inr 1 ∧
  Session.requireAuth (Some "sid")
    (Session.logout (Some "sid")
       (Session.login UserSchema.plain AuthFixture.bcrypt_compare
          (LoginBody.mk "a@x.com" "p1") "sid" (AuthFixture.registered UserSchema.plain) ∅).2).2
  = inl (json 401 (JError "Please log in")).
Proof. split; vm_compute; reflexivity. Qed.

(** The scenario of the specification: log in with the right password, then
    list with the token before any note exists. *)
Example scenario_login_then_empty_listing :
  Jwt.login AuthFixture.env UserSchema.plain AuthFixture.bcrypt_compare
    (LoginBody.mk "a@x.com" "p1") 0 (AuthFixture.registered UserSchema.plain)
  = ok (JMsgTokenUser "Login successful" TokenFixture.token (publicUser AuthFixture.userA)) ∧
  Jwt.guarded AuthFixture.env TokenFixture.bearer 1000
    (λ userId notes, (Notes.getNotes Fixture.noRegex userId Fixture.noFilter notes, notes)) ∅
  = (ok (JNotes []), ∅) ∧
  Jwt.guarded AuthFixture.env None 1000
    (λ userId notes, (Notes.getNotes Fixture.noRegex userId Fixture.noFilter notes, notes)) ∅
  = (json 401 (JError "Authentication required"), ∅).
Proof. repeat split; vm_compute; reflexivity. Qed.

(** ** Archived and pinned *)

Lemma findOne_owned (userId noteId : ObjectId) (n : Note) (notes : gmap ObjectId Note) :
  notes !! noteId = Some n → user n = userId →
  Mongoose.findOne noteId (Notes.ownedBy userId) notes = Some n.
Proof.
  intros Hn Hu. apply findOne_Some. split; [done|].
  unfold Notes.ownedBy. by apply Nat.eqb_eq.
Qed.

Lemma createNote_archivedNotPinned (userId : ObjectId) (b : CreateBody.t)
    (newId : ObjectId) (now : Date) (notes : gmap ObjectId Note) :
  map_Forall (λ _, archivedNotPinned) notes →
  map_Forall (λ _, archivedNotPinned) (Notes.createNote userId b newId now notes).2.
Proof.
  intros H. unfold Notes.createNote.
  destruct (CreateBody.title b) as [t|]; [|done].
  destruct (notes !! newId); [done|]. destruct (Js.truthy (Js.trim t)); [|done].
  simpl. apply map_Forall_insert_2; [|done]. intros [=].
Qed.

Lemma setArchived_archivedNotPinned (userId noteId : ObjectId) (archive : option bool)
    (now : Date) (notes : gmap ObjectId Note) :
  map_Forall (λ _, archivedNotPinned) notes →
  map_Forall (λ _, archivedNotPinned) (Notes.setArchived userId noteId archive now notes).2.
Proof.
  intros H. unfold Notes.setArchived.
  destruct (Mongoose.findOne _ _ _) as [n|] eqn:E; [|done].
  apply findOne_Some in E as [Hn _]. unfold Mongoose.save.
  destruct (default true archive) eqn:Ha; simpl.
  - apply map_Forall_insert_2; [|done]. by case_decide.
  - apply map_Forall_insert_2; [|done]. case_decide; intros [=].
Qed.

(** [PUT /notes/:noteId] keeps the invariant unless the body pins without
    saying anything about [isArchived]. *)
Lemma updateNote_archivedNotPinned (userId noteId : ObjectId) (b : Fields.t) (now : Date)
    (notes : gmap ObjectId Note) :
  ¬ (Fields.isArchived b = None ∧ Fields.isPinned b = Some true) →
  map_Forall (λ _, archivedNotPinned) notes →
  map_Forall (λ _, archivedNotPinned) (Notes.updateNote userId noteId b now notes).2.
Proof.
  intros Hb H. unfold Notes.updateNote, Mongoose.findOneAndUpdate.
  destruct (Mongoose.findOne _ _ _) as [n|] eqn:E; [|done].
  apply findOne_Some in E as [Hn _]. simpl.
  apply map_Forall_insert_2; [|done].
  specialize (H _ _ Hn). unfold archivedNotPinned in *. simpl.
  destruct (Fields.isArchived b) as [[]|], (Fields.isPinned b) as [[]|]; simpl;
    try done; try (intros; exfalso; by apply Hb).
Qed.

(** C6: on an archived, unpinned note of the caller [PATCH /notes/:noteId/pin]
    flips [isPinned] to true, stores the result and returns it; it is not a
    no-op. *)
Theorem togglePin_pins_archived_note (userId noteId : ObjectId) (now : Date)
    (notes : gmap ObjectId Note) (n : Note) :
  notes !! noteId = Some n → _id n = noteId → user n = userId →
  isArchived n = true → isPinned n = false →
  ∃ n', Notes.togglePin userId noteId now notes
        = (ok (JMsgNote "Note pinned successfully" n'), <[noteId := n']> notes) ∧
        isPinned n' = true ∧ isArchived n' = true ∧ n' ≠ n.
Proof.
  intros Hn Hid Hu Ha Hp. unfold Notes.togglePin.
  rewrite (findOne_owned _ _ _ _ Hn Hu). unfold Mongoose.save.
  rewrite decide_False.
  2:{ intros Heq. apply (f_equal isPinned) in Heq. simpl in Heq. rewrite Hp in Heq. done. }
  rewrite Hp, Hid. simpl. eexists. split; [done|]. simpl. repeat split; [done|].
  intros Heq. apply (f_equal isPinned) in Heq. simpl in Heq. congruence.
Qed.

(** C5: Alice creates T1, archives it, then toggles its pin: the stored note
    is archived and pinned at once. *)
Theorem pin_after_archive_is_archived_and_pinned :
  PinFixture.archivedT1 !! 1 = Some PinFixture.T1_archived ∧
  Notes.togglePin Fixture.alice 1 40 PinFixture.archivedT1
  = (ok (JMsgNote "Note pinned successfully" PinFixture.T1_archived_pinned),
     {[ 1 := PinFixture.T1_archived_pinned; 2 := Fixture.T2 ]}) ∧
  isArchived PinFixture.T1_archived_pinned = true ∧
  isPinned PinFixture.T1_archived_pinned = true ∧
  ¬ archivedNotPinned PinFixture.T1_archived_pinned.
Proof.
  repeat split; try (vm_compute; reflexivity).
  intros H. specialize (H eq_refl). discriminate.
Qed.

(** The update route reaches the same state with [{ isPinned: true }]. *)
Example update_pins_archived_note :
  Notes.updateNote Fixture.alice 1 PinFixture.pinOnly 40 PinFixture.archivedT1
  = (ok (JMsgNote "Note updated successfully" PinFixture.T1_archived_pinned),
     {[ 1 := PinFixture.T1_archived_pinned; 2 := Fixture.T2 ]}).
Proof. vm_compute. reflexivity. Qed.

Lemma togglePin_pins_archived_note_witness :
  (PinFixture.archivedT1 !! 1 = Some PinFixture.T1_archived ∧
   _id PinFixture.T1_archived = 1 ∧ user PinFixture.T1_archived = Fixture.alice ∧
   isArchived PinFixture.T1_archived = true ∧ isPinned PinFixture.T1_archived = false) ∧
  ∃ n', Notes.togglePin Fixture.alice 1 40 PinFixture.archivedT1
        = (ok (JMsgNote "Note pinned successfully" n'), <[1 := n']> PinFixture.archivedT1) ∧
        isPinned n' = true ∧ isArchived n' = true ∧ n' ≠ PinFixture.T1_archived.
Proof.
  split.
  - repeat split; vm_compute; reflexivity.
  - apply (togglePin_pins_archived_note Fixture.alice 1 40 PinFixture.archivedT1
             PinFixture.T1_archived); vm_compute; reflexivity.
Defined.

(** ** Partial update *)

(** C7 as worded fails: [{ isArchived: true }] on the pinned T1 also clears
    [isPinned], which the body omits.  (This is the scenario of the
    specification: archiving a pinned note in one update call.) *)
Lemma update_archive_clears_omitted_isPinned :
  Fixture.pinnedT1 !! 1 = Some Fixture.T1_pinned ∧
  Notes.updateNote Fixture.alice 1 PinFixture.archiveOnly 40 Fixture.pinnedT1
  = (ok (JMsgNote "Note updated successfully" PinFixture.T1_unpinned_by_archive),
     {[ 1 := PinFixture.T1_unpinned_by_archive; 2 := Fixture.T2 ]}) ∧
  ¬ changesExactlySupplied PinFixture.archiveOnly Fixture.T1_pinned
      PinFixture.T1_unpinned_by_archive.
Proof.
  repeat split; try (vm_compute; reflexivity).
  intros (_ & _ & _ & _ & H & _). vm_compute in H. discriminate.
Qed.

(** C7 (amended): on a note of the caller, [PUT /notes/:noteId] sets every
    supplied field to the supplied value ([title], [content] and [category]
    after the schema's [trim]; an empty string is a value) and leaves every
    omitted field, the owner, the id and [createdAt] as they were, except
    that a supplied [isArchived = true] sets [isPinned] to false whether
    [isPinned] was supplied or not; [updatedAt] becomes the time of the
    update. *)
Theorem updateNote_sets_supplied_fields (userId noteId : ObjectId) (b : Fields.t)
    (now : Date) (notes : gmap ObjectId Note) (n : Note) :
  notes !! noteId = Some n → user n = userId →
  ∃ n', Notes.updateNote userId noteId b now notes
        = (ok (JMsgNote "Note updated successfully" n'), <[noteId := n']> notes) ∧
    title n' = from_option Js.trim (title n) (Fields.title b) ∧
    content n' = from_option Js.trim (content n) (Fields.content b) ∧
    color n' = default (color n) (Fields.color b) ∧
    category n' = from_option Js.trim (category n) (Fields.category b) ∧
    isPinned n' = (if decide (Fields.isArchived b = Some true) then false
                   else default (isPinned n) (Fields.isPinned b)) ∧
    isFavorite n' = default (isFavorite n) (Fields.isFavorite b) ∧
    isArchived n' = default (isArchived n) (Fields.isArchived b) ∧
    user n' = user n ∧ _id n' = _id n ∧ createdAt n' = createdAt n ∧
    updatedAt n' = now.
Proof.
  intros Hn Hu. unfold Notes.updateNote, Mongoose.findOneAndUpdate.
  rewrite (findOne_owned _ _ _ _ Hn Hu). eexists. split; [done|]. simpl.
  repeat split.
  destruct (Fields.isArchived b) as [[]|]; by case_decide.
Qed.

Lemma updateNote_sets_supplied_fields_witness :
  (Fixture.twoNotes !! 1 = Some Fixture.T1 ∧ user Fixture.T1 = Fixture.alice) ∧
  ∃ n', Notes.updateNote Fixture.alice 1 PinFixture.emptyTitle 40 Fixture.twoNotes
        = (ok (JMsgNote "Note updated successfully" n'), <[1 := n']> Fixture.twoNotes) ∧
    title n' = from_option Js.trim (title Fixture.T1) (Fields.title PinFixture.emptyTitle) ∧
    content n'
      = from_option Js.trim (content Fixture.T1) (Fields.content PinFixture.emptyTitle) ∧
    color n' = default (color Fixture.T1) (Fields.color PinFixture.emptyTitle) ∧
    category n'
      = from_option Js.trim (category Fixture.T1) (Fields.category PinFixture.emptyTitle) ∧
    isPinned n' = (if decide (Fields.isArchived PinFixture.emptyTitle = Some true) then false
                   else default (isPinned Fixture.T1) (Fields.isPinned PinFixture.emptyTitle)) ∧
    isFavorite n' = default (isFavorite Fixture.T1) (Fields.isFavorite PinFixture.emptyTitle) ∧
    isArchived n' = default (isArchived Fixture.T1) (Fields.isArchived PinFixture.emptyTitle) ∧
    user n' = user Fixture.T1 ∧ _id n' = _id Fixture.T1 ∧
    createdAt n' = createdAt Fixture.T1 ∧ updatedAt n' = 40%Z.
Proof.
  split.
  - split; vm_compute; reflexivity.
  - apply (updateNote_sets_supplied_fields Fixture.alice 1 PinFixture.emptyTitle 40
             Fixture.twoNotes Fixture.T1); vm_compute; reflexivity.
Defined.

(** A supplied empty title is stored. *)
Example update_with_empty_title :
  Notes.updateNote Fixture.alice 1 PinFixture.emptyTitle 40 Fixture.twoNotes
  = (ok (JMsgNote "Note updated successfully" PinFixture.T1_untitled),
     {[ 1 := PinFixture.T1_untitled; 2 := Fixture.T2 ]}).
Proof. vm_compute. reflexivity. Qed.

(** ** The session server with the user id in the path *)

(** C1: on [DELETE /notes/:userId/:noteId] of [server.js] (second document)
    Bob, logged in and acting in his own scope (his id in the path), deletes
    Alice's note and is told [{ success: true }]: the query has no owner
    condition.  With Alice's id in the path the guard answers 403
    [Forbidden].  Neither answer is the 404 of a missing note. *)
Theorem Legacy_delete_reaches_other_users_note :
  LegacyFixture.notes = {[ 1 := Fixture.T1 ]} ∧
  user Fixture.T1 = Fixture.alice ∧ Fixture.bob ≠ Fixture.alice ∧
  Legacy.deleteNote (Some Fixture.bob) Fixture.bob 1 LegacyFixture.notes
  = (ok JSuccess, ∅) ∧
  Legacy.deleteNote (Some Fixture.bob) Fixture.alice 1 LegacyFixture.notes
  = (json 403 (JError "Forbidden"), LegacyFixture.notes).
Proof. repeat split; try (vm_compute; reflexivity). discriminate. Qed.

(** The scoped route on the same input. *)
Example scoped_delete_hides_other_users_note :
  Notes.deleteNote Fixture.bob 1 LegacyFixture.notes = (notFound, LegacyFixture.notes) ∧
  Notes.deleteNote Fixture.bob 99 LegacyFixture.notes = (notFound, LegacyFixture.notes).
Proof. split; vm_compute; reflexivity. Qed.

(** C9: on [DELETE /notes/:userId/:noteId] of [server.js] (second document)
    Alice deletes her note twice and is told [{ success: true }] both times,
    as she is for an id that never existed. *)
Theorem Legacy_delete_twice_succeeds_twice :
  Legacy.deleteNote (Some Fixture.alice) Fixture.alice 1 LegacyFixture.notes
  = (ok JSuccess, ∅) ∧
  Legacy.deleteNote (Some Fixture.alice) Fixture.alice 1
    (Legacy.deleteNote (Some Fixture.alice) Fixture.alice 1 LegacyFixture.notes).2
  = (ok JSuccess, ∅) ∧
  Legacy.deleteNote (Some Fixture.alice) Fixture.alice 99 LegacyFixture.notes
  = (ok JSuccess, LegacyFixture.notes).
Proof. repeat split; vm_compute; reflexivity. Qed.

(** The scoped route on the same input. *)
Example scoped_delete_twice :
  Notes.deleteNote Fixture.alice 1 LegacyFixture.notes
  = (ok (JMsg "Note deleted successfully"), ∅) ∧
  Notes.deleteNote Fixture.alice 1 (Notes.deleteNote Fixture.alice 1 LegacyFixture.notes).2
  = (notFound, ∅) ∧
  Notes.deleteNote Fixture.alice 99 LegacyFixture.notes = (notFound, LegacyFixture.notes).
Proof. repeat split; vm_compute; reflexivity. Qed.

(** [GET /notes/:userId/:noteId] of the same server compares nothing with
    the session: Bob reads a note embedded in user 1's document. *)
Example Legacy_getNote_reads_other_users_note :
  Legacy.getNote (Some Fixture.bob) 1 5 EmbeddedFixture.users
  = json 200 (JSubNote EmbeddedFixture.note) ∧
  Legacy.getNote (Some Fixture.bob) 1 6 EmbeddedFixture.users
  = json 404 (JMsg "Note not found").
Proof. split; vm_compute; reflexivity. Qed.

(** ** The earliest server *)

(** [title || note.title]: a supplied empty title is taken for no title. *)
Example Embedded_update_ignores_empty_title :
  Embedded.updateNote 1 5 (Some EmptyString) None None 20 EmbeddedFixture.users
  = (json 200 (JMsgSubNote "Note updated successfully" EmbeddedFixture.note),
     EmbeddedFixture.users).
Proof. vm_compute. reflexivity. Qed.

Example Embedded_delete_twice :
  (Embedded.deleteNote 1 5 EmbeddedFixture.users).1
  = json 200 (JMsg "Note deleted successfully") ∧
  (Embedded.deleteNote 1 5 (Embedded.deleteNote 1 5 EmbeddedFixture.users).2).1
  = json 404 (JMsg "Note not found").
Proof. split; vm_compute; reflexivity. Qed.

(** ** Listings sorted on [createdAt] alone *)

(** The servers that sort on [createdAt] alone have no route that pins:
    every note they create is unpinned. *)
Lemma Recent_createNote_unpinned (userId : ObjectId) (title_ content_ : option string)
    (newId : ObjectId) (now : Date) (notes : gmap ObjectId Note) :
  map_Forall (λ _, unpinned) notes →
  map_Forall (λ _, unpinned) (Recent.createNote userId title_ content_ newId now notes).2.
Proof.
  intros H. unfold Recent.createNote. destruct title_ as [t|]; [|done].
  destruct (notes !! newId); [done|]. destruct (Js.truthy (Js.trim t)); [|done].
  simpl. by apply map_Forall_insert_2.
Qed.

Lemma Legacy_createNote_unpinned (session : option ObjectId) (userId : ObjectId)
    (title_ content_ : option string) (newId : ObjectId) (now : Date)
    (notes : gmap ObjectId Note) :
  map_Forall (λ _, unpinned) notes →
  map_Forall (λ _, unpinned)
    (Legacy.createNote session userId title_ content_ newId now notes).2.
Proof.
  intros H. unfold Legacy.createNote. destruct (Legacy.requireAuth session); [done|].
  destruct (negb _); [done|]. destruct title_ as [t|]; [|done].
  destruct (notes !! newId); [done|]. destruct (Js.truthy (Js.trim t)); [|done].
  simpl. by apply map_Forall_insert_2.
Qed.

(** On such a collection the [createdAt] order is the order of C8. *)
Lemma createdDesc_pinnedFirstThenRecent (p : Note → bool) (notes : gmap ObjectId Note) :
  map_Forall (λ _, unpinned) notes →
  pinnedFirstThenRecent (Mongoose.sort Mongoose.byCreatedDesc (Mongoose.find p notes)).
Proof.
  intros H i j a b Hi Hj Hlt.
  assert (unpinned a ∧ unpinned b) as [Ha Hb].
  { split; [apply list_elem_of_lookup_2 in Hi as Hin | apply list_elem_of_lookup_2 in Hj as Hin];
      apply elem_of_sort, find_elem_of in Hin as [[k Hk] _]; by apply (H k). }
  assert (Mongoose.byCreatedDesc a b) as Hab.
  { eapply StronglySorted_lookup; eauto.
    unfold Mongoose.sort. apply StronglySorted_merge_sort; apply _. }
  unfold unpinned in *. split; [congruence | done].
Qed.

Lemma Recent_getNotes_ordered (userId : ObjectId) (notes : gmap ObjectId Note)
    (l : list Note) :
  map_Forall (λ _, unpinned) notes →
  body (Recent.getNotes userId notes) = JNotes l → pinnedFirstThenRecent l.
Proof. intros H [= <-]. by apply createdDesc_pinnedFirstThenRecent. Qed.

(** * Further properties of the routes *)

(** ** The note collection under the scoped routes *)

Lemma save_lookup (now : Date) (loaded modified : Note) (notes : gmap ObjectId Note) :
  (Mongoose.save now loaded modified notes).2
  = <[_id loaded := (Mongoose.save now loaded modified notes).1]> notes.
Proof. done. Qed.

Lemma save_sameButUpdatedAt (now : Date) (loaded modified : Note)
    (notes : gmap ObjectId Note) :
  sameButUpdatedAt (Mongoose.save now loaded modified notes).1 modified.
Proof. unfold Mongoose.save. simpl. by case_decide. Qed.

(** Every mutating route keeps each note under its own [_id]. *)
Lemma route_wellKeyed (userId : ObjectId) (m : Notes.Mutation) (now : Date)
    (notes : gmap ObjectId Note) :
  wellKeyed notes → wellKeyed (Notes.route userId m now notes).2.
Proof.
  intros H. destruct m as [b newId|noteId b|noteId|noteId|noteId archive]; simpl.
  - unfold Notes.createNote. destruct (CreateBody.title b) as [t|]; [|done].
    destruct (notes !! newId); [done|]. destruct (Js.truthy _); [|done].
    simpl. by apply map_Forall_insert_2.
  - unfold Notes.updateNote, Mongoose.findOneAndUpdate.
    destruct (Mongoose.findOne _ _ _) as [d|] eqn:E; [|done].
    apply findOne_Some in E as [Hd _]. simpl.
    apply map_Forall_insert_2; [|done]. simpl. by apply (H _ _ Hd).
  - unfold Notes.deleteNote, Mongoose.deleteOne.
    destruct (Mongoose.findOne _ _ _); [|done]. simpl. by apply map_Forall_delete.
  - unfold Notes.togglePin.
    destruct (Mongoose.findOne _ _ _) as [d|] eqn:E; [|done].
    destruct (Mongoose.save _ _ _ _) as [saved notes'] eqn:S. simpl.
    pose proof (save_lookup now d (Notes.withIsPinned (negb (isPinned d)) d) notes) as Hl.
    pose proof (save_sameButUpdatedAt now d (Notes.withIsPinned (negb (isPinned d)) d) notes)
      as (Hid & _).
    rewrite S in Hl, Hid. simpl in Hl, Hid. subst notes'.
    by apply map_Forall_insert_2.
  - unfold Notes.setArchived.
    destruct (Mongoose.findOne _ _ _) as [d|] eqn:E; [|done].
    destruct (Mongoose.save _ _ _ _) as [saved notes'] eqn:S. simpl.
    match type of S with Mongoose.save _ _ ?md _ = _ =>
      pose proof (save_lookup now d md notes) as Hl;
      pose proof (save_sameButUpdatedAt now d md notes) as (Hid & _) end.
    rewrite S in Hl, Hid. simpl in Hl, Hid. subst notes'.
    apply map_Forall_insert_2; [|done]. rewrite Hid.
    by destruct (default true archive).
Qed.

(** X1: whatever sequence of create, update, delete, pin and archive
    requests the server handles from the empty collection, every note is
    stored under its own [_id]. *)
Theorem served_collection_wellKeyed (requests : list (ObjectId * Notes.Mutation * Date)) :
  wellKeyed (serve requests ∅).
Proof.
  unfold serve. assert (wellKeyed (∅ : gmap ObjectId Note)) as H0 by apply map_Forall_empty.
  revert H0. generalize (∅ : gmap ObjectId Note) as c.
  induction requests as [|[[u m] t] rs IH]; intros c Hc; simpl; [done|].
  apply IH. by apply route_wellKeyed.
Qed.

(** What one request does to the entry under a key [k]: nothing; or it
    stores a note of the caller there, keeping id, owner and creation time
    if a note was there; or it removes a note of the caller. *)
Lemma route_effect (userId : ObjectId) (m : Notes.Mutation) (now : Date)
    (notes : gmap ObjectId Note) (k : ObjectId) :
  wellKeyed notes →
  (Notes.route userId m now notes).2 !! k = notes !! k ∨
  (∃ n', (Notes.route userId m now notes).2 !! k = Some n' ∧ user n' = userId ∧
     (notes !! k = None ∨
      ∃ n, notes !! k = Some n ∧ user n = userId ∧ _id n' = _id n ∧
           createdAt n' = createdAt n)) ∨
  ((Notes.route userId m now notes).2 !! k = None ∧
   ∃ n, notes !! k = Some n ∧ user n = userId).
Proof.
  intros H. destruct m as [b newId|noteId b|noteId|noteId|noteId archive]; simpl.
  - unfold Notes.createNote. destruct (CreateBody.title b) as [t|]; [|by left].
    destruct (notes !! newId) eqn:Hnew; [by left|]. destruct (Js.truthy _); [|by left].
    simpl. destruct (decide (k = newId)) as [->|Hne].
    + right; left. rewrite lookup_insert_eq. eexists. split; [done|]. split; [done|]. by left.
    + left. by rewrite lookup_insert_ne.
  - unfold Notes.updateNote, Mongoose.findOneAndUpdate.
    destruct (Mongoose.findOne _ _ _) as [d|] eqn:E; [|by left].
    apply findOne_Some in E as [Hd Ho]. apply Nat.eqb_eq in Ho. simpl.
    destruct (decide (k = noteId)) as [->|Hne].
    + right; left. rewrite lookup_insert_eq. eexists. split; [done|]. split; [done|].
      right. by exists d.
    + left. by rewrite lookup_insert_ne.
  - unfold Notes.deleteNote, Mongoose.deleteOne.
    destruct (Mongoose.findOne _ _ _) as [d|] eqn:E; [|by left].
    apply findOne_Some in E as [Hd Ho]. apply Nat.eqb_eq in Ho. simpl.
    destruct (decide (k = noteId)) as [->|Hne].
    + right; right. rewrite lookup_delete_eq. split; [done|]. by exists d.
    + left. by rewrite lookup_delete_ne.
  - unfold Notes.togglePin.
    destruct (Mongoose.findOne _ _ _) as [d|] eqn:E; [|by left].
    apply findOne_Some in E as [Hd Ho]. apply Nat.eqb_eq in Ho.
    pose proof (H _ _ Hd) as Hid. simpl in Hid.
    destruct (Mongoose.save _ _ _ _) as [saved notes'] eqn:S. simpl.
    match type of S with Mongoose.save _ _ ?md _ = _ =>
      pose proof (save_lookup now d md notes) as Hl;
      pose proof (save_sameButUpdatedAt now d md notes) as Hs end.
    rewrite S in Hl, Hs. simpl in Hl, Hs. subst notes'. rewrite Hid.
    destruct Hs as (Hi & _ & _ & _ & _ & _ & _ & _ & Hu & Hc). simpl in *.
    destruct (decide (k = noteId)) as [->|Hne].
    + right; left. rewrite lookup_insert_eq. exists saved. split; [done|].
      split; [congruence|]. right. exists d. by rewrite Hi, Hc.
    + left. by rewrite lookup_insert_ne.
  - unfold Notes.setArchived.
    destruct (Mongoose.findOne _ _ _) as [d|] eqn:E; [|by left].
    apply findOne_Some in E as [Hd Ho]. apply Nat.eqb_eq in Ho.
    pose proof (H _ _ Hd) as Hid. simpl in Hid.
    destruct (Mongoose.save _ _ _ _) as [saved notes'] eqn:S. simpl.
    match type of S with Mongoose.save _ _ ?md _ = _ =>
      pose proof (save_lookup now d md notes) as Hl;
      pose proof (save_sameButUpdatedAt now d md notes) as Hs end.
    rewrite S in Hl, Hs. simpl in Hl, Hs. subst notes'. rewrite Hid.
    destruct Hs as (Hi & _ & _ & _ & _ & _ & _ & _ & Hu & Hc).
    assert (_id saved = _id d ∧ user saved = user d ∧ createdAt saved = createdAt d)
      as (Hi' & Hu' & Hc').
    { rewrite Hi, Hu, Hc. by destruct (default true archive). }
    destruct (decide (k = noteId)) as [->|Hne].
    + right; left. rewrite lookup_insert_eq. exists saved. split; [done|].
      split; [congruence|]. right. by exists d.
    + left. by rewrite lookup_insert_ne.
Qed.

(** X2: a request made in one user's scope leaves every note of every
    other user exactly as it was, and whatever it stores or changes is
    owned by the caller. *)
Theorem route_confined_to_caller (userId : ObjectId) (m : Notes.Mutation) (now : Date)
    (notes : gmap ObjectId Note) :
  wellKeyed notes →
  (∀ k n, notes !! k = Some n → user n ≠ userId →
     (Notes.route userId m now notes).2 !! k = Some n) ∧
  (∀ k n', (Notes.route userId m now notes).2 !! k = Some n' →
     notes !! k = Some n' ∨ user n' = userId).
Proof.
  intros H. split.
  - intros k n Hn Hu.
    destruct (route_effect userId m now notes k H)
      as [->|[(n' & _ & _ & [Hnone|(n0 & Hn0 & Hu0 & _)])|(_ & n0 & Hn0 & Hu0)]];
      [done|congruence..].
  - intros k n' Hn'.
    destruct (route_effect userId m now notes k H)
      as [Heq|[(n0 & Hn0 & Hu0 & _)|(Hnone & _)]].
    + left. congruence.
    + right. congruence.
    + congruence.
Qed.

(** X4: no request changes the id, the owner or the creation time of a
    note that stays in the collection. *)
Theorem route_keeps_identity (userId : ObjectId) (m : Notes.Mutation) (now : Date)
    (notes : gmap ObjectId Note) (k : ObjectId) (n n' : Note) :
  wellKeyed notes →
  notes !! k = Some n → (Notes.route userId m now notes).2 !! k = Some n' →
  _id n' = _id n ∧ user n' = user n ∧ createdAt n' = createdAt n.
Proof.
  intros H Hn Hn'.
  destruct (route_effect userId m now notes k H)
    as [Heq|[(n0 & Hn0 & Hu0 & [Hnone|(n1 & Hn1 & Hu1 & Hi & Hc)])|(Hnone & _)]];
    try congruence.
  - assert (n' = n) as -> by congruence. done.
  - assert (n0 = n') as -> by congruence. assert (n1 = n) as -> by congruence.
    repeat split; congruence.
Qed.

(** X10: once [DELETE /notes/:noteId] has been handled, whatever it
    answered, the caller finds no note under that id: reading, updating,
    deleting, pinning and archiving it all answer 404 and change nothing. *)
Theorem deleted_note_is_gone (userId noteId : ObjectId) (notes : gmap ObjectId Note)
    (b : Fields.t) (archive : option bool) (now : Date) :
  Notes.getNote userId noteId (Notes.deleteNote userId noteId notes).2 = notFound ∧
  Notes.updateNote userId noteId b now (Notes.deleteNote userId noteId notes).2
    = (notFound, (Notes.deleteNote userId noteId notes).2) ∧
  Notes.deleteNote userId noteId (Notes.deleteNote userId noteId notes).2
    = (notFound, (Notes.deleteNote userId noteId notes).2) ∧
  Notes.togglePin userId noteId now (Notes.deleteNote userId noteId notes).2
    = (notFound, (Notes.deleteNote userId noteId notes).2) ∧
  Notes.setArchived userId noteId archive now (Notes.deleteNote userId noteId notes).2
    = (notFound, (Notes.deleteNote userId noteId notes).2).
Proof.
  apply scoped_routes_not_found.
  unfold Notes.deleteNote, Mongoose.deleteOne.
  destruct (Mongoose.findOne noteId (Notes.ownedBy userId) notes) eqn:E; simpl.
  - apply findOne_after_delete.
  - done.
Qed.

(** X11: [GET /categories] lists each category once, and lists exactly the
    categories of the caller's notes, archived ones included. *)
Theorem getCategories_distinct_and_exact (userId : ObjectId) (notes : gmap ObjectId Note) :
  NoDup (Notes.getCategories userId notes) ∧
  ∀ c, c ∈ Notes.getCategories userId notes ↔
       ∃ n, stored notes n ∧ user n = userId ∧ category n = c.
Proof.
  unfold Notes.getCategories. split; [apply NoDup_remove_dups|].
  intros c. rewrite elem_of_remove_dups, list_elem_of_fmap. split.
  - intros (n & -> & Hn). apply find_elem_of in Hn as [Hs Ho].
    exists n. split; [done|]. split; [|done]. by apply Nat.eqb_eq.
  - intros (n & Hs & Hu & <-). exists n. split; [done|].
    apply find_elem_of. split; [done|]. by apply Nat.eqb_eq.
Qed.

(** White space only trims to the empty string. *)
Lemma trimStart_blank (s : string) :
  Forall (λ c, Js.isWhiteSpace c = true) (list_ascii_of_string s) →
  Js.trimStart s = EmptyString.
Proof.
  induction s as [|c s IH]; simpl; [done|]. intros H.
  apply Forall_cons in H as [Hc Hs]. rewrite Hc. by apply IH.
Qed.

Lemma trim_blank (s : string) :
  Forall (λ c, Js.isWhiteSpace c = true) (list_ascii_of_string s) →
  Js.trim s = EmptyString.
Proof. intros H. unfold Js.trim. by rewrite trimStart_blank. Qed.

(** X6: [POST /notes] with a missing title, or a title of white space only,
    is answered 500 and stores nothing. *)
Theorem createNote_rejects_blank_title (userId : ObjectId) (b : CreateBody.t)
    (newId : ObjectId) (now : Date) (notes : gmap ObjectId Note) :
  (∀ t, CreateBody.title b = Some t →
        Forall (λ c, Js.isWhiteSpace c = true) (list_ascii_of_string t)) →
  Notes.createNote userId b newId now notes
  = (json 500 (JError "Failed to create note"), notes).
Proof.
  intros H. unfold Notes.createNote.
  destruct (CreateBody.title b) as [t|]; [|done].
  rewrite (trim_blank t (H t eq_refl)). simpl. by destruct (notes !! newId).
Qed.

(** X5: a note that [POST /notes] has created (201) is owned by the caller,
    unpinned and unarchived; the caller reads it back by its id and finds it
    in the unfiltered listing, and another user gets 404 for its id. *)
Theorem created_note_is_readable (regex : string → option (string → bool))
    (userId other : ObjectId) (b : CreateBody.t)
    (newId : ObjectId) (now : Date) (notes notes' : gmap ObjectId Note) (r : Response) :
  Notes.createNote userId b newId now notes = (r, notes') → status r = 201 →
  other ≠ userId →
  ∃ note, r = json 201 (JMsgNote "Note created successfully" note) ∧
    _id note = newId ∧ user note = userId ∧
    isPinned note = false ∧ isArchived note = false ∧
    createdAt note = now ∧ updatedAt note = now ∧
    Notes.getNote userId newId notes' = ok (JNote note) ∧
    Notes.getNote other newId notes' = notFound ∧
    ∃ l, Notes.getNotes regex userId (Query.mk None None None) notes' = ok (JNotes l) ∧
         note ∈ l.
Proof.
  unfold Notes.createNote. intros Hc Hr Ho.
  destruct (CreateBody.title b) as [t|]; [|by injection Hc as <- <-].
  destruct (notes !! newId) eqn:Hnew; [by injection Hc as <- <-|].
  destruct (Js.truthy _); [|by injection Hc as <- <-].
  injection Hc as <- <-. eexists. split; [done|]. simpl.
  repeat split.
  - unfold Notes.getNote, Mongoose.findOne. rewrite lookup_insert_eq.
    unfold Notes.ownedBy. simpl. by rewrite Nat.eqb_refl.
  - unfold Notes.getNote, Mongoose.findOne. rewrite lookup_insert_eq.
    unfold Notes.ownedBy. simpl.
    assert ((userId =? other)%nat = false) as -> by (apply Nat.eqb_neq; congruence). done.
  - unfold Notes.getNotes. simpl. eexists. split; [done|].
    apply elem_of_sort, find_elem_of. split.
    + exists newId. apply lookup_insert_eq.
    + unfold Notes.ownedBy. simpl. by rewrite Nat.eqb_refl.
Qed.

(** ** Pinning and archiving, step by step *)

Lemma sameButUpdatedAt_eq (a b : Note) :
  sameButUpdatedAt a b → updatedAt a = updatedAt b → a = b.
Proof.
  destruct a, b. unfold sameButUpdatedAt. simpl.
  intros (-> & -> & -> & -> & -> & -> & -> & -> & -> & ->) ->. done.
Qed.



Lemma setArchived_owned (userId noteId : ObjectId) (archive : option bool) (now : Date)
    (notes : gmap ObjectId Note) (n : Note) :
  notes !! noteId = Some n → _id n = noteId → user n = userId →
  ∃ n', Notes.setArchived userId noteId archive now notes
        = (ok (JMsgNote (if default true archive then "Note archived successfully"
                         else "Note unarchived successfully") n'),
           <[noteId := n']> notes) ∧
        sameButUpdatedAt n'
          (if default true archive
           then Notes.withIsPinned false (Notes.withIsArchived true n)
           else Notes.withIsArchived false n) ∧
        (isArchived n = default true archive →
         (default true archive = true → isPinned n = false) → n' = n).
Proof.
  intros Hn Hid Hu. unfold Notes.setArchived.
  rewrite (findOne_owned _ _ _ _ Hn Hu).
  destruct (Mongoose.save _ _ _ _) as [saved notes'] eqn:S.
  match type of S with Mongoose.save _ _ ?md _ = _ =>
    pose proof (save_lookup now n md notes) as Hl;
    pose proof (save_sameButUpdatedAt now n md notes) as Hs end.
  rewrite S in Hl, Hs. simpl in Hl, Hs. subst notes'. rewrite Hid.
  exists saved. split; [done|]. split.
  - by destruct (default true archive).
  - intros Ha Hp. unfold Mongoose.save in S. injection S as <- _.
    destruct (default true archive) eqn:Hd.
    + specialize (Hp eq_refl).
      assert (Notes.withIsPinned false (Notes.withIsArchived true n) = n) as ->.
      { destruct n. simpl in *. by subst. }
      by rewrite decide_True.
    + assert (Notes.withIsArchived false n = n) as ->.
      { destruct n. simpl in *. by subst. }
      by rewrite decide_True.
Qed.

(** X9: repeating [PATCH /notes/:noteId/archive] with the same body changes
    nothing: the second request returns the note the first one returned and
    leaves the collection, [updatedAt] included, as the first one left it. *)
Theorem setArchived_idempotent (userId noteId : ObjectId) (archive : option bool)
    (t1 t2 : Date) (notes : gmap ObjectId Note) :
  wellKeyed notes →
  Notes.setArchived userId noteId archive t2
    (Notes.setArchived userId noteId archive t1 notes).2
  = Notes.setArchived userId noteId archive t1 notes.
Proof.
  intros H.
  destruct (Mongoose.findOne noteId (Notes.ownedBy userId) notes) as [n|] eqn:E.
  - apply findOne_Some in E as [Hn Ho]. apply Nat.eqb_eq in Ho.
    pose proof (H _ _ Hn) as Hid. simpl in Hid.
    destruct (setArchived_owned userId noteId archive t1 notes n Hn Hid Ho)
      as (n1 & -> & Hs1 & _). simpl.
    assert (_id n1 = noteId ∧ user n1 = userId ∧ isArchived n1 = default true archive ∧
            (default true archive = true → isPinned n1 = false)) as (Hi & Hu & Ha & Hp).
    { destruct Hs1 as (Hi1 & _ & _ & _ & _ & Hp1 & _ & Ha1 & Hu1 & _).
      destruct (default true archive); simpl in *; repeat split; congruence. }
    destruct (setArchived_owned userId noteId archive t2 (<[noteId := n1]> notes) n1)
      as (n2 & -> & _ & Heq); [apply lookup_insert_eq|done..|].
    rewrite (Heq Ha Hp). by rewrite insert_insert_eq.
  - assert (Notes.setArchived userId noteId archive t1 notes = (notFound, notes)) as ->.
    { unfold Notes.setArchived. by rewrite E. }
    simpl. unfold Notes.setArchived. by rewrite E.
Qed.


Lemma route_archivedNotPinned (userId : ObjectId) (m : Notes.Mutation) (now : Date)
    (notes : gmap ObjectId Note) :
  mayPin m = false →
  map_Forall (λ _, archivedNotPinned) notes →
  map_Forall (λ _, archivedNotPinned) (Notes.route userId m now notes).2.
Proof.
  intros Hm H. destruct m as [b newId|noteId b|noteId|noteId|noteId archive]; simpl.
  - by apply createNote_archivedNotPinned.
  - apply updateNote_archivedNotPinned; [|done].
    simpl in Hm. by apply bool_decide_eq_false in Hm.
  - unfold Notes.deleteNote, Mongoose.deleteOne.
    destruct (Mongoose.findOne _ _ _); [|done]. simpl. by apply map_Forall_delete.
  - done.
  - by apply setArchived_archivedNotPinned.
Qed.

(** X12: as long as no request toggles a pin or pins by an update that is
    silent on [isArchived], no note of the collection is archived and pinned
    at once. *)
Theorem served_archivedNotPinned (requests : list (ObjectId * Notes.Mutation * Date)) :
  Forall (λ '(_, m, _), mayPin m = false) requests →
  map_Forall (λ _, archivedNotPinned) (serve requests ∅).
Proof.
  unfold serve.
  assert (map_Forall (λ _, archivedNotPinned) (∅ : gmap ObjectId Note)) as H0
    by apply map_Forall_empty.
  revert H0. generalize (∅ : gmap ObjectId Note) as c.
  induction requests as [|[[u m] t] rs IH]; intros c Hc Hall; simpl; [done|].
  apply Forall_cons in Hall as [Hm Hrs]. apply IH; [|done].
  by apply route_archivedNotPinned.
Qed.

(** ** The JWT gate *)

(** X14: [requireAuth] lets a request through only when the second piece of
    the [Authorization] header is a token signed with the server's secret
    whose expiry lies ahead; the user id it binds is the one in the token's
    payload. *)
Theorem requireAuth_sound (env : Env.t) (authorization : option (list Segment))
    (now : Date) (userId : ObjectId) :
  Jwt.requireAuth env authorization now = inr userId →
  ∃ parts tok secret,
    authorization = Some parts ∧ parts !! 1%nat = Some (Token tok) ∧
    Jwt.JWT_SECRET env = Some secret ∧ secret ≠ EmptyString ∧
    signedWith tok = secret ∧ jwt_userId tok = userId ∧ (now < 1000 * exp tok)%Z.
Proof.
  unfold Jwt.requireAuth. destruct authorization as [parts|]; simpl; [|done].
  destruct (parts !! 1%nat) as [[s|tok]|] eqn:Hp; simpl; [by destruct s|..|done].
  unfold jsonwebtoken.verify. destruct (Jwt.JWT_SECRET env) as [secret|]; [|done].
  destruct (Js.truthy secret) eqn:Ht; [|done].
  destruct (String.eqb (signedWith tok) secret) eqn:Hs; [|done].
  destruct (exp tok <=? _)%Z eqn:He; [done|]. simpl. intros [= <-].
  exists parts, tok, secret. repeat split; try done.
  - intros ->. done.
  - by apply String.eqb_eq.
  - by apply clock_before.
Qed.

Lemma requireAuth_issued (env : Env.t) (userId : ObjectId) (issuedAt now : Date)
    (tok : Jwt) (scheme : Segment) :
  Jwt.generateToken env userId issuedAt = Some tok →
  (now < 1000 * (issuedAt / 1000 + 604800))%Z →
  Jwt.requireAuth env (Some [scheme; Token tok]) now = inr userId.
Proof.
  intros Hgen Hlt. apply generateToken_Some in Hgen as (s & Hsecret & Hs & ->).
  unfold Jwt.requireAuth, jsonwebtoken.verify.
  cbn [mbind option_bind lookup list_lookup exp signedWith jwt_userId].
  rewrite Hsecret, Hs, String.eqb_refl. cbn [andb].
  apply clock_before in Hlt. unfold Jwt.expiresIn, jsonwebtoken.clockTimestamp in *.
  by rewrite Hlt.
Qed.

(** ** Signup, login and the user collection *)

Section AccountFacts.

Variable schema : UserSchema.t.
Variable env : Env.t.
Variable bcrypt_hash : string → string → string.
Variable bcrypt_compare : string → string → bool.

Lemma create_stored (newId : ObjectId) (n e p : string) (u : User)
    (users users' : gmap ObjectId User) :
  Users.create schema newId n e p users = Some (u, users') →
  user_id u = newId ∧ password u = p ∧ users' !! newId = Some u.
Proof.
  unfold Users.create. simpl. destruct (_ && _ && _); [|done].
  destruct (users !! newId); [done|]. destruct (find _ _); [done|].
  intros [= <- <-]. simpl. repeat split. apply lookup_insert_eq.
Qed.

Lemma create_invariants (newId : ObjectId) (n e p : string) (u : User)
    (users users' : gmap ObjectId User) :
  Users.create schema newId n e p users = Some (u, users') →
  usersWellKeyed users → emailsUnique users →
  usersWellKeyed users' ∧ emailsUnique users'.
Proof.
  intros Hc Hk He.
  pose proof (create_stored _ _ _ _ _ _ _ Hc) as (Hid & _ & _).
  apply create_exactlyOneRecord in Hc as (-> & Hfresh & Hemail & (k0 & u0 & _ & _ & Huniq)).
  split.
  - by apply map_Forall_insert_2.
  - intros k1 k2 u1 u2 H1 H2 Heq.
    destruct (decide (email u1 = UserSchema.castEmail schema e)) as [HE|HE].
    + rewrite (Huniq k1 u1 H1 HE). symmetry. apply (Huniq k2 u2 H2). congruence.
    + assert (k1 ≠ newId) as Hn1.
      { intros ->. rewrite lookup_insert_eq in H1. congruence. }
      assert (k2 ≠ newId) as Hn2.
      { intros ->. rewrite lookup_insert_eq in H2. congruence. }
      rewrite lookup_insert_ne in H1, H2 by done. by eapply He.
Qed.

Lemma Jwt_signup_created (b : SignupBody.t) (salt : string) (newId : ObjectId)
    (now : Date) (users users' : gmap ObjectId User) (r : Response) :
  Jwt.signup env schema bcrypt_hash b salt newId now users = (r, users') →
  status r = 201 →
  ∃ u tok,
    Users.create schema newId (SignupBody.name b) (SignupBody.email b)
      (bcrypt_hash (SignupBody.password b) salt) users = Some (u, users') ∧
    Jwt.generateToken env newId now = Some tok ∧
    r = json 201 (JMsgTokenUser "User created successfully" tok (publicUser u)).
Proof.
  unfold Jwt.signup.
  destruct (Users.findOneByEmail _ _ _); [by intros [= <- <-]|].
  destruct (Users.create _ _ _ _ _ _) as [[u us]|] eqn:Hc; [|by intros [= <- <-]].
  pose proof (create_stored _ _ _ _ _ _ _ Hc) as (Hid & _).
  destruct (Jwt.generateToken _ _ _) as [tok|] eqn:Hg; [|by intros [= <- <-]].
  intros [= <- <-] _. exists u, tok. by rewrite <- Hid.
Qed.

(** X15: the token that a successful [POST /auth/signup] returns passes
    [requireAuth] for seven days from its issue second, and [GET /auth/me]
    with it answers the very user that signup returned. *)
Theorem signup_token_identifies_new_user (b : SignupBody.t) (salt : string)
    (newId : ObjectId) (now now' : Date) (scheme : Segment)
    (users users' : gmap ObjectId User) (r : Response) :
  Jwt.signup env schema bcrypt_hash b salt newId now users = (r, users') →
  status r = 201 → (now' < 1000 * (now / 1000 + 604800))%Z →
  ∃ tok u, r = json 201 (JMsgTokenUser "User created successfully" tok u) ∧
    pub_id u = newId ∧
    Jwt.requireAuth env (Some [scheme; Token tok]) now' = inr newId ∧
    Jwt.me env (Some [scheme; Token tok]) now' users' = ok (JUser u).
Proof.
  intros Hs Hr Hlt.
  destruct (Jwt_signup_created _ _ _ _ _ _ _ Hs Hr) as (u & tok & Hc & Hg & ->).
  pose proof (create_stored _ _ _ _ _ _ _ Hc) as (Hid & _ & Hst).
  pose proof (requireAuth_issued env newId now now' tok scheme Hg Hlt) as Ha.
  exists tok, (publicUser u). split; [done|]. split; [done|]. split; [done|].
  unfold Jwt.me. by rewrite Ha, Hst.
Qed.

(** X16: after a successful signup, [POST /auth/login] with the same
    password and any email that the schema casts to the registered one logs
    that same user in; this needs bcrypt to accept the password against the
    hash it made of it. *)
Theorem signup_then_login (b : SignupBody.t) (salt : string) (newId : ObjectId)
    (now now' : Date) (email' : string) (users users' : gmap ObjectId User)
    (r : Response) :
  Jwt.signup env schema bcrypt_hash b salt newId now users = (r, users') →
  status r = 201 →
  bcrypt_compare (SignupBody.password b) (bcrypt_hash (SignupBody.password b) salt) = true →
  UserSchema.castEmail schema email' = UserSchema.castEmail schema (SignupBody.email b) →
  ∃ tok tok' u, r = json 201 (JMsgTokenUser "User created successfully" tok u) ∧
    Jwt.login env schema bcrypt_compare (LoginBody.mk email' (SignupBody.password b))
      now' users'
    = ok (JMsgTokenUser "Login successful" tok' u) ∧
    jwt_userId tok' = newId.
Proof.
  intros Hs Hr Hb He.
  destruct (Jwt_signup_created _ _ _ _ _ _ _ Hs Hr) as (u & tok & Hc & Hg & ->).
  pose proof (create_stored _ _ _ _ _ _ _ Hc) as (Hid & Hpw & Hst).
  apply create_exactlyOneRecord in Hc as (_ & _ & Hemail & (k0 & u0 & Hk0 & _ & Huniq)).
  assert (Users.findOneByEmail schema email' users' = Some u) as Hfind.
  { destruct (findOneByEmail_stored schema email' users' newId u Hst) as [v Hv];
      [congruence|].
    rewrite Hv. f_equal.
    apply findOneByEmail_Some in Hv as [[k Hk] Hve].
    assert (k = k0) by (apply (Huniq k v Hk); congruence).
    assert (newId = k0) by (apply (Huniq newId u Hst); congruence).
    congruence. }
  apply generateToken_Some in Hg as (s & Hsecret & Hts & ->).
  eexists _, _, (publicUser u). split; [done|].
  unfold Jwt.login. simpl. rewrite Hfind, Hpw, Hb.
  unfold Jwt.generateToken, jsonwebtoken.sign. rewrite Hsecret, Hts, Hid. done.
Qed.

(** X17: with no secret configured, [POST /auth/signup] of a new email
    stores the user and then fails on the token: the answer is 500
    [Signup failed], and the same signup again is refused with
    [User already exists]. *)
Theorem signup_without_secret_still_stores (b : SignupBody.t) (salt salt' : string)
    (newId newId' : ObjectId) (now now' : Date) (u : User)
    (users users' : gmap ObjectId User) :
  Jwt.JWT_SECRET env = None →
  Users.findOneByEmail schema (SignupBody.email b) users = None →
  Users.create schema newId (SignupBody.name b) (SignupBody.email b)
    (bcrypt_hash (SignupBody.password b) salt) users = Some (u, users') →
  Jwt.signup env schema bcrypt_hash b salt newId now users
    = (json 500 (JError "Signup failed"), users') ∧
  users' !! newId = Some u ∧
  Jwt.signup env schema bcrypt_hash b salt' newId' now' users'
    = (json 400 (JError "User already exists"), users').
Proof.
  intros Hsec Hfind Hc.
  pose proof (create_stored _ _ _ _ _ _ _ Hc) as (Hid & _ & Hst).
  split; [|split; [done|]].
  - unfold Jwt.signup. rewrite Hfind, Hc.
    unfold Jwt.generateToken, jsonwebtoken.sign. by rewrite Hsec.
  - apply create_exactlyOneRecord in Hc as (_ & _ & Hemail & _).
    by eapply signup_existing_email.
Qed.

(** X18: every signup route keeps the user collection well formed: each
    user under its own id, and no two records with the same email. *)
Theorem signup_keeps_users_wellformed (b : SignupBody.t) (salt : string)
    (newId : ObjectId) (now : Date) (sid : string)
    (users : gmap ObjectId User) (sessions : gmap string ObjectId) :
  usersWellKeyed users → emailsUnique users →
  (usersWellKeyed (Jwt.signup env schema bcrypt_hash b salt newId now users).2 ∧
   emailsUnique (Jwt.signup env schema bcrypt_hash b salt newId now users).2) ∧
  (usersWellKeyed (Session.signup schema bcrypt_hash b salt newId sid users sessions).2.1 ∧
   emailsUnique (Session.signup schema bcrypt_hash b salt newId sid users sessions).2.1) ∧
  (usersWellKeyed (Embedded.signup schema bcrypt_hash b salt newId users).2 ∧
   emailsUnique (Embedded.signup schema bcrypt_hash b salt newId users).2).
Proof.
  intros Hk He. unfold Jwt.signup, Session.signup, Embedded.signup.
  destruct (Users.findOneByEmail _ _ _); [done|].
  destruct (Users.create _ _ _ _ _ _) as [[u us]|] eqn:Hc; [|done].
  pose proof (create_invariants _ _ _ _ _ _ _ Hc Hk He) as Hinv.
  by destruct (Jwt.generateToken _ _ _).
Qed.

End AccountFacts.

(** ** Sessions *)

Section SessionFacts.

Variable schema : UserSchema.t.
Variable bcrypt_hash : string → string → string.
Variable bcrypt_compare : string → string → bool.

(** X19: [POST /auth/login] of the session server either logs the user in
    on the request's session - [requireAuth] then passes as that user and
    [GET /auth/session] answers that user - or answers 401 and leaves every
    session as it was.  No other session is touched in either case. *)
Theorem Session_login_opens_only_own_session (b : LoginBody.t) (sid : string)
    (users : gmap ObjectId User) (sessions sessions' : gmap string ObjectId)
    (r : Response) :
  usersWellKeyed users →
  Session.login schema bcrypt_compare b sid users sessions = (r, sessions') →
  ((∃ u, r = ok (JMsgUser "Login successful" (publicUser u)) ∧
         Session.requireAuth (Some sid) sessions' = inr (user_id u) ∧
         Session.session (Some sid) users sessions' = ok (JUser (publicUser u))) ∨
   (r = json 401 (JError "Invalid email or password") ∧ sessions' = sessions)) ∧
  ∀ sid', sid' ≠ sid →
    Session.requireAuth (Some sid') sessions' = Session.requireAuth (Some sid') sessions.
Proof.
  intros Hk. unfold Session.login.
  destruct (Users.findOneByEmail _ _ _) as [u|] eqn:Hf.
  - apply findOneByEmail_Some in Hf as [[k Hu] _].
    pose proof (Hk _ _ Hu) as Hid. simpl in Hid. subst k.
    destruct (bcrypt_compare _ _); intros [= <- <-].
    + split.
      * left. exists u. split; [done|].
        unfold Session.requireAuth, Session.session, Session.sessionUserId. simpl.
        by rewrite lookup_insert_eq, Hu.
      * intros sid' Hne. unfold Session.requireAuth, Session.sessionUserId. simpl.
        by rewrite lookup_insert_ne.
    + split; [by right | done].
  - intros [= <- <-]. split; [by right | done].
Qed.

(** X20: [POST /auth/logout] ends the session of the request and no other:
    [requireAuth] then refuses that session, every other session passes as
    before, and a second logout changes nothing more. *)
Theorem Session_logout_ends_only_own_session (sid sid' : string)
    (sessions : gmap string ObjectId) :
  Session.requireAuth (Some sid) (Session.logout (Some sid) sessions).2
    = inl (json 401 (JError "Please log in")) ∧
  (sid' ≠ sid →
   Session.requireAuth (Some sid') (Session.logout (Some sid) sessions).2
     = Session.requireAuth (Some sid') sessions) ∧
  Session.logout (Some sid) (Session.logout (Some sid) sessions).2
    = Session.logout (Some sid) sessions ∧
  Session.logout None sessions = (ok (JMsg "Logged out successfully"), sessions).
Proof.
  unfold Session.requireAuth, Session.logout, Session.sessionUserId. simpl.
  repeat split.
  - by rewrite lookup_delete_eq.
  - intros Hne. by rewrite lookup_delete_ne.
  - f_equal. apply delete_id. apply lookup_delete_eq.
Qed.

(** X21: a successful [POST /auth/signup] of the session server logs the
    new user in on the request's session; a refused or failed signup changes
    neither the users nor any session. *)
Theorem Session_signup_logs_in (b : SignupBody.t) (salt : string) (newId : ObjectId)
    (sid : string) (users users' : gmap ObjectId User)
    (sessions sessions' : gmap string ObjectId) (r : Response) :
  Session.signup schema bcrypt_hash b salt newId sid users sessions
    = (r, (users', sessions')) →
  (status r = 201 ∧
   ∃ u, r = json 201 (JMsgUser "User created successfully" (publicUser u)) ∧
        user_id u = newId ∧ users' !! newId = Some u ∧
        Session.requireAuth (Some sid) sessions' = inr newId ∧
        Session.session (Some sid) users' sessions' = ok (JUser (publicUser u))) ∨
  (status r ≠ 201 ∧ users' = users ∧ sessions' = sessions).
Proof.
  unfold Session.signup.
  destruct (Users.findOneByEmail _ _ _); [intros [= <- <- <-]; by right|].
  destruct (Users.create _ _ _ _ _ _) as [[u us]|] eqn:Hc;
    [|intros [= <- <- <-]; by right].
  pose proof (create_stored _ _ _ _ _ _ _ _ Hc) as (Hid & _ & Hst).
  intros [= <- <- <-]. left. split; [done|]. exists u. split; [done|].
  split; [done|]. split; [done|].
  unfold Session.requireAuth, Session.session, Session.sessionUserId. simpl.
  by rewrite lookup_insert_eq, Hid, Hst.
Qed.

End SessionFacts.

(** ** The routes with the user id in the path *)

(** X22: [POST /notes/:userId] stores a note only for a logged-in user
    posting under their own id, and the note is theirs; every other request
    leaves the collection as it was. *)
Theorem Legacy_createNote_only_in_own_scope (session : option ObjectId)
    (userId : ObjectId) (title_ content_ : option string) (newId : ObjectId) (now : Date)
    (notes notes' : gmap ObjectId Note) (r : Response) :
  Legacy.createNote session userId title_ content_ newId now notes = (r, notes') →
  (session = Some userId ∧ notes !! newId = None ∧
   ∃ note, r = json 201 (JNote note) ∧ user note = userId ∧ _id note = newId ∧
           notes' = <[newId := note]> notes) ∨
  (status r ≠ 201 ∧ notes' = notes).
Proof.
  unfold Legacy.createNote, Legacy.requireAuth.
  destruct session as [s|]; [|intros [= <- <-]; by right].
  destruct (s =? userId)%nat eqn:Hs; simpl; [|intros [= <- <-]; by right].
  apply Nat.eqb_eq in Hs as ->.
  destruct title_ as [t|]; [|intros [= <- <-]; by right].
  destruct (notes !! newId) eqn:Hn; [intros [= <- <-]; by right|].
  destruct (Js.truthy _); intros [= <- <-]; [|by right].
  left. split; [done|]. split; [done|]. eexists. split; [done|]. done.
Qed.

(** X23: [GET /notes/:userId] answers any logged-in user, whoever they are,
    with exactly the notes owned by the user of the path, the most recently
    created first; the listing of [unnamed/part_001] (second document) for
    its caller is the same list. *)
Theorem Legacy_getNotes_lists_path_user (sessionUser userId : ObjectId)
    (notes : gmap ObjectId Note) :
  ∃ l, Legacy.getNotes (Some sessionUser) userId notes = json 200 (JNotes l) ∧
       Recent.getNotes userId notes = ok (JNotes l) ∧
       StronglySorted Mongoose.byCreatedDesc l ∧
       ∀ n, n ∈ l ↔ stored notes n ∧ user n = userId.
Proof.
  eexists. split; [done|]. split; [done|]. split.
  - unfold Mongoose.sort. apply StronglySorted_merge_sort; apply _.
  - intros n. rewrite elem_of_sort, find_elem_of, Nat.eqb_eq. done.
Qed.

(** ** The embedded notes of the earliest server *)








#[global] Instance subByCreatedDesc_trans : Transitive Embedded.subByCreatedDesc.
Proof. intros a b c. unfold Embedded.subByCreatedDesc. lia. Qed.

#[global] Instance subByCreatedDesc_total : Total Embedded.subByCreatedDesc.
Proof. intros a b. unfold Embedded.subByCreatedDesc. lia. Qed.


(** ** The setters of the user schema *)

Lemma isWhiteSpace_lowerChar (c : ascii) :
  Js.isWhiteSpace (Js.lowerChar c) = Js.isWhiteSpace c.
Proof. destruct c as [[] [] [] [] [] [] [] []]; reflexivity. Qed.

Lemma lowerChar_idempotent (c : ascii) : Js.lowerChar (Js.lowerChar c) = Js.lowerChar c.
Proof. destruct c as [[] [] [] [] [] [] [] []]; reflexivity. Qed.

Lemma toLowerCase_idempotent (s : string) :
  Js.toLowerCase (Js.toLowerCase s) = Js.toLowerCase s.
Proof.
  induction s as [|c s IH]; simpl; [done|]. by rewrite lowerChar_idempotent, IH.
Qed.

Lemma toLowerCase_trimStart (s : string) :
  Js.toLowerCase (Js.trimStart s) = Js.trimStart (Js.toLowerCase s).
Proof.
  induction s as [|c s IH]; simpl; [done|].
  rewrite isWhiteSpace_lowerChar. by destruct (Js.isWhiteSpace c).
Qed.

Lemma toLowerCase_trimEnd (s : string) :
  Js.toLowerCase (Js.trimEnd s) = Js.trimEnd (Js.toLowerCase s).
Proof.
  induction s as [|c s IH]; simpl; [done|].
  rewrite <- IH, isWhiteSpace_lowerChar.
  destruct (Js.trimEnd s); simpl; [|done]. by destruct (Js.isWhiteSpace c).
Qed.

Lemma trimStart_idempotent (s : string) : Js.trimStart (Js.trimStart s) = Js.trimStart s.
Proof.
  induction s as [|c s IH]; simpl; [done|].
  destruct (Js.isWhiteSpace c) eqn:Hc; [done|]. simpl. by rewrite Hc.
Qed.

Lemma trimEnd_idempotent (s : string) : Js.trimEnd (Js.trimEnd s) = Js.trimEnd s.
Proof.
  induction s as [|c s IH]; simpl; [done|].
  destruct (Js.trimEnd s) as [|d t] eqn:Ht.
  - destruct (Js.isWhiteSpace c) eqn:Hc; simpl; [done|]. by rewrite Hc.
  - change (Js.trimEnd (String c (String d t))) with
      (match Js.trimEnd (String d t) with
       | EmptyString => if Js.isWhiteSpace c then EmptyString else String c EmptyString
       | u => String c u
       end).
    by rewrite IH.
Qed.

Lemma trimStart_trimEnd (s : string) :
  Js.trimStart (Js.trimEnd s) = Js.trimEnd (Js.trimStart s).
Proof.
  induction s as [|c s IH]; [done|].
  change (Js.trimEnd (String c s)) with
    (match Js.trimEnd s with
     | EmptyString => if Js.isWhiteSpace c then EmptyString else String c EmptyString
     | u => String c u
     end).
  cbn [Js.trimStart]. destruct (Js.isWhiteSpace c) eqn:Hc.
  - rewrite <- IH. destruct (Js.trimEnd s) as [|d t]; [done|].
    cbn [Js.trimStart]. by rewrite Hc.
  - change (Js.trimEnd (String c s)) with
      (match Js.trimEnd s with
       | EmptyString => if Js.isWhiteSpace c then EmptyString else String c EmptyString
       | u => String c u
       end).
    rewrite Hc. destruct (Js.trimEnd s); cbn [Js.trimStart]; by rewrite Hc.
Qed.

Lemma trim_idempotent (s : string) : Js.trim (Js.trim s) = Js.trim s.
Proof.
  unfold Js.trim.
  by rewrite trimStart_trimEnd, trimStart_idempotent, trimEnd_idempotent.
Qed.

(** X27: the setters of the user schema of [unnamed/part_002] are
    idempotent: an email (or name) as it is stored is left unchanged by a
    further cast, so a stored email always matches itself in a query. *)
Theorem normalized_setters_idempotent (s : string) :
  UserSchema.castEmail UserSchema.normalized
    (UserSchema.castEmail UserSchema.normalized s)
  = UserSchema.castEmail UserSchema.normalized s ∧
  UserSchema.castName UserSchema.normalized
    (UserSchema.castName UserSchema.normalized s)
  = UserSchema.castName UserSchema.normalized s.
Proof.
  simpl. split; [|apply trim_idempotent].
  unfold Js.trim.
  rewrite toLowerCase_trimEnd, toLowerCase_trimStart, toLowerCase_idempotent.
  apply trim_idempotent.
Qed.

(** ** Runs of several requests *)

Lemma serve_wellKeyed (requests : list (ObjectId * Notes.Mutation * Date))
    (notes : gmap ObjectId Note) :
  wellKeyed notes → wellKeyed (serve requests notes).
Proof.
  unfold serve. revert notes.
  induction requests as [|[[u m] t] rs IH]; intros c Hc; simpl; [done|].
  apply IH. by apply route_wellKeyed.
Qed.

(** X3: over any run of requests none of which is made by user [A], every
    note of [A] stays in the collection exactly as it was. *)
Theorem others_requests_leave_notes_alone (A : ObjectId)
    (requests : list (ObjectId * Notes.Mutation * Date)) (notes : gmap ObjectId Note)
    (k : ObjectId) (n : Note) :
  wellKeyed notes → Forall (λ '(userId, _, _), userId ≠ A) requests →
  notes !! k = Some n → user n = A →
  serve requests notes !! k = Some n.
Proof.
  unfold serve. revert notes.
  induction requests as [|[[u m] t] rs IH]; intros c Hc Hall Hn Hu; simpl; [done|].
  apply Forall_cons in Hall as [Hne Hrs].
  apply IH; [by apply route_wellKeyed|done| |done].
  destruct (route_effect u m t c k Hc)
    as [->|[(n' & _ & _ & [Hnone|(n0 & Hn0 & Hu0 & _)])|(_ & n0 & Hn0 & Hu0)]];
    [done|congruence..].
Qed.

Lemma NoDup_List_filter {A} (f : A → bool) (l : list A) :
  NoDup l → NoDup (List.filter f l).
Proof.
  induction 1 as [|x l Hx Hl IH]; simpl; [constructor|].
  destruct (f x); [|done]. constructor; [|done].
  rewrite list_elem_of_In, filter_In, <- list_elem_of_In. tauto.
Qed.

(** X13: with every note under its own id, [GET /notes] lists no note
    twice. *)
Theorem getNotes_lists_each_note_once (regex : string → option (string → bool))
    (userId : ObjectId) (query : Query.t) (notes : gmap ObjectId Note) (l : list Note) :
  wellKeyed notes →
  body (Notes.getNotes regex userId query notes) = JNotes l → NoDup l.
Proof.
  intros Hk. unfold Notes.getNotes.
  destruct (match Query.search query with
            | Some search => _ | None => _ end) as [matches|]; simpl; [|done].
  intros [= <-]. unfold Mongoose.sort. rewrite merge_sort_Permutation.
  unfold Mongoose.find. apply NoDup_List_filter.
  apply NoDup_fmap_2_strong; [|apply NoDup_map_to_list].
  intros [k1 n1] [k2 n2] H1 H2 Heq. simpl in Heq. subst n2.
  apply elem_of_map_to_list in H1, H2.
  pose proof (Hk _ _ H1) as E1. pose proof (Hk _ _ H2) as E2. simpl in *. congruence.
Qed.

(** ** The further properties on concrete runs *)

Lemma twoNotes_wellKeyed : wellKeyed Fixture.twoNotes.
Proof.
  change Fixture.twoNotes with
    (Notes.route Fixture.alice RunFixture.createT2 20
       (Notes.route Fixture.alice RunFixture.createT1 10 ∅).2).2.
  do 2 apply route_wellKeyed. apply map_Forall_empty.
Qed.

Lemma pinnedT1_wellKeyed : wellKeyed Fixture.pinnedT1.
Proof.
  change Fixture.pinnedT1 with
    (Notes.route Fixture.alice (Notes.TogglePin 1) 30 Fixture.twoNotes).2.
  apply route_wellKeyed, twoNotes_wellKeyed.
Qed.

Lemma route_confined_to_caller_witness :
  wellKeyed Fixture.twoNotes ∧
  (∀ k n, Fixture.twoNotes !! k = Some n → user n ≠ Fixture.bob →
     (Notes.route Fixture.bob (Notes.Delete 1) 30 Fixture.twoNotes).2 !! k = Some n) ∧
  (∀ k n', (Notes.route Fixture.bob (Notes.Delete 1) 30 Fixture.twoNotes).2 !! k = Some n' →
     Fixture.twoNotes !! k = Some n' ∨ user n' = Fixture.bob).
Proof.
  split; [apply twoNotes_wellKeyed|].
  apply (route_confined_to_caller Fixture.bob (Notes.Delete 1) 30 Fixture.twoNotes).
  apply twoNotes_wellKeyed.
Defined.

Lemma others_requests_leave_notes_alone_witness :
  (wellKeyed Fixture.twoNotes ∧
   Forall (λ '(userId, _, _), userId ≠ Fixture.alice) RunFixture.bobsRequests ∧
   Fixture.twoNotes !! 1 = Some Fixture.T1 ∧ user Fixture.T1 = Fixture.alice) ∧
  serve RunFixture.bobsRequests Fixture.twoNotes !! 1 = Some Fixture.T1.
Proof.
  assert (Forall (λ '(userId, _, _), userId ≠ Fixture.alice) RunFixture.bobsRequests) as H.
  { repeat constructor; discriminate. }
  split.
  - split; [apply twoNotes_wellKeyed|]. split; [done|]. split; vm_compute; reflexivity.
  - apply (others_requests_leave_notes_alone Fixture.alice RunFixture.bobsRequests
             Fixture.twoNotes 1 Fixture.T1);
      [apply twoNotes_wellKeyed | done | vm_compute; reflexivity | reflexivity].
Defined.

Lemma route_keeps_identity_witness :
  (Fixture.twoNotes !! 1 = Some Fixture.T1 ∧
   (Notes.route Fixture.alice (Notes.TogglePin 1) 30 Fixture.twoNotes).2 !! 1
     = Some Fixture.T1_pinned) ∧
  _id Fixture.T1_pinned = _id Fixture.T1 ∧ user Fixture.T1_pinned = user Fixture.T1 ∧
  createdAt Fixture.T1_pinned = createdAt Fixture.T1.
Proof.
  split; [split; vm_compute; reflexivity|].
  apply (route_keeps_identity Fixture.alice (Notes.TogglePin 1) 30 Fixture.twoNotes 1
           Fixture.T1 Fixture.T1_pinned);
    [apply twoNotes_wellKeyed | vm_compute; reflexivity | vm_compute; reflexivity].
Defined.

Lemma created_note_is_readable_witness :
  Notes.createNote Fixture.alice (CreateBody.mk (Some "T1") None None None) 1 10 ∅
  = (json 201 (JMsgNote "Note created successfully" Fixture.T1), {[ 1 := Fixture.T1 ]}) ∧
  ∃ note, json 201 (JMsgNote "Note created successfully" Fixture.T1)
          = json 201 (JMsgNote "Note created successfully" note) ∧
    _id note = 1 ∧ user note = Fixture.alice ∧
    isPinned note = false ∧ isArchived note = false ∧
    createdAt note = 10%Z ∧ updatedAt note = 10%Z ∧
    Notes.getNote Fixture.alice 1 {[ 1 := Fixture.T1 ]} = ok (JNote note) ∧
    Notes.getNote Fixture.bob 1 {[ 1 := Fixture.T1 ]} = notFound ∧
    ∃ l, Notes.getNotes Fixture.noRegex Fixture.alice (Query.mk None None None)
           {[ 1 := Fixture.T1 ]} = ok (JNotes l) ∧ note ∈ l.
Proof.
  split; [vm_compute; reflexivity|].
  apply (created_note_is_readable Fixture.noRegex Fixture.alice Fixture.bob
           (CreateBody.mk (Some "T1") None None None) 1 10 ∅ {[ 1 := Fixture.T1 ]}
           (json 201 (JMsgNote "Note created successfully" Fixture.T1)));
    [vm_compute; reflexivity | reflexivity | discriminate].
Defined.

Lemma createNote_rejects_blank_title_witness :
  Notes.createNote Fixture.alice RunFixture.blankTitle 3 30 Fixture.twoNotes
  = (json 500 (JError "Failed to create note"), Fixture.twoNotes).
Proof.
  apply (createNote_rejects_blank_title Fixture.alice RunFixture.blankTitle 3 30
           Fixture.twoNotes).
  intros t [= <-]. repeat constructor.
Defined.



Lemma setArchived_idempotent_witness :
  wellKeyed Fixture.pinnedT1 ∧
  Notes.setArchived Fixture.alice 1 None 50
    (Notes.setArchived Fixture.alice 1 None 40 Fixture.pinnedT1).2
  = Notes.setArchived Fixture.alice 1 None 40 Fixture.pinnedT1.
Proof.
  split; [apply pinnedT1_wellKeyed|].
  apply (setArchived_idempotent Fixture.alice 1 None 40 50 Fixture.pinnedT1).
  apply pinnedT1_wellKeyed.
Defined.

Lemma served_archivedNotPinned_witness :
  Forall (λ '(_, m, _), mayPin m = false) RunFixture.createAndArchive ∧
  map_Forall (λ _, archivedNotPinned) (serve RunFixture.createAndArchive ∅).
Proof.
  assert (Forall (λ '(_, m, _), mayPin m = false) RunFixture.createAndArchive) as H
    by (repeat constructor).
  split; [done|].
  by apply (served_archivedNotPinned RunFixture.createAndArchive).
Defined.

Lemma getNotes_lists_each_note_once_witness :
  body (Notes.getNotes Fixture.noRegex Fixture.alice Fixture.noFilter Fixture.twoNotes)
  = JNotes [Fixture.T2; Fixture.T1] ∧ NoDup [Fixture.T2; Fixture.T1].
Proof.
  split; [vm_compute; reflexivity|].
  apply (getNotes_lists_each_note_once Fixture.noRegex Fixture.alice Fixture.noFilter
           Fixture.twoNotes); [apply twoNotes_wellKeyed | vm_compute; reflexivity].
Defined.

Lemma registered_plain :
  AuthFixture.registered UserSchema.plain = {[ 1 := AuthFixture.userA ]}.
Proof. vm_compute. reflexivity. Qed.

Lemma registered_plain_wellKeyed : usersWellKeyed (AuthFixture.registered UserSchema.plain).
Proof. rewrite registered_plain. by apply map_Forall_singleton. Qed.

Lemma requireAuth_sound_witness :
  Jwt.requireAuth AuthFixture.env TokenFixture.bearer 1000 = inr 1 ∧
  ∃ parts tok secret,
    TokenFixture.bearer = Some parts ∧ parts !! 1%nat = Some (Token tok) ∧
    Jwt.JWT_SECRET AuthFixture.env = Some secret ∧ secret ≠ EmptyString ∧
    signedWith tok = secret ∧ jwt_userId tok = 1 ∧ (1000 < 1000 * exp tok)%Z.
Proof.
  split; [vm_compute; reflexivity|].
  apply (requireAuth_sound AuthFixture.env TokenFixture.bearer 1000 1).
  vm_compute. reflexivity.
Defined.

Lemma signup_token_identifies_new_user_witness :
  Jwt.signup AuthFixture.env UserSchema.plain AuthFixture.bcrypt_hash AuthFixture.first
    "salt" 1 0 ∅
  = (json 201 (JMsgTokenUser "User created successfully" TokenFixture.token
                 (publicUser AuthFixture.userA)),
     {[ 1 := AuthFixture.userA ]}) ∧
  ∃ tok u,
    json 201 (JMsgTokenUser "User created successfully" TokenFixture.token
                (publicUser AuthFixture.userA))
    = json 201 (JMsgTokenUser "User created successfully" tok u) ∧
    pub_id u = 1 ∧
    Jwt.requireAuth AuthFixture.env (Some [Text "Bearer"; Token tok]) 604799999 = inr 1 ∧
    Jwt.me AuthFixture.env (Some [Text "Bearer"; Token tok]) 604799999
      {[ 1 := AuthFixture.userA ]} = ok (JUser u).
Proof.
  split; [vm_compute; reflexivity|].
  apply (signup_token_identifies_new_user UserSchema.plain AuthFixture.env
           AuthFixture.bcrypt_hash AuthFixture.first "salt" 1 0 604799999 (Text "Bearer")
           ∅ {[ 1 := AuthFixture.userA ]});
    [vm_compute; reflexivity | reflexivity | reflexivity].
Defined.

Lemma signup_then_login_witness :
  (AuthFixture.bcrypt_compare "p1" (AuthFixture.bcrypt_hash "p1" "salt") = true ∧
   UserSchema.castEmail UserSchema.normalized " A@X.com "
   = UserSchema.castEmail UserSchema.normalized "a@x.com") ∧
  ∃ tok tok' u,
    (Jwt.signup AuthFixture.env UserSchema.normalized AuthFixture.bcrypt_hash
       AuthFixture.first "salt" 1 0 ∅).1
    = json 201 (JMsgTokenUser "User created successfully" tok u) ∧
    Jwt.login AuthFixture.env UserSchema.normalized AuthFixture.bcrypt_compare
      (LoginBody.mk " A@X.com " "p1") 5000
      (Jwt.signup AuthFixture.env UserSchema.normalized AuthFixture.bcrypt_hash
         AuthFixture.first "salt" 1 0 ∅).2
    = ok (JMsgTokenUser "Login successful" tok' u) ∧
    jwt_userId tok' = 1.
Proof.
  split; [split; vm_compute; reflexivity|].
  apply (signup_then_login UserSchema.normalized AuthFixture.env AuthFixture.bcrypt_hash
           AuthFixture.bcrypt_compare AuthFixture.first "salt" 1 0 5000 " A@X.com " ∅);
    [apply surjective_pairing | vm_compute; reflexivity..].
Defined.

Lemma signup_without_secret_still_stores_witness :
  Jwt.JWT_SECRET RunFixture.noSecret = None ∧
  Jwt.signup RunFixture.noSecret UserSchema.plain AuthFixture.bcrypt_hash AuthFixture.first
    "salt" 1 0 ∅
  = (json 500 (JError "Signup failed"), {[ 1 := AuthFixture.userA ]}) ∧
  ({[ 1 := AuthFixture.userA ]} : gmap ObjectId User) !! 1 = Some AuthFixture.userA ∧
  Jwt.signup RunFixture.noSecret UserSchema.plain AuthFixture.bcrypt_hash AuthFixture.first
    "salt" 2 1000 {[ 1 := AuthFixture.userA ]}
  = (json 400 (JError "User already exists"), {[ 1 := AuthFixture.userA ]}).
Proof.
  split; [reflexivity|].
  apply (signup_without_secret_still_stores UserSchema.plain RunFixture.noSecret
           AuthFixture.bcrypt_hash AuthFixture.first "salt" "salt" 1 2 0 1000
           AuthFixture.userA ∅ {[ 1 := AuthFixture.userA ]});
    vm_compute; reflexivity.
Defined.

Lemma signup_keeps_users_wellformed_witness :
  (usersWellKeyed
     (Jwt.signup AuthFixture.env UserSchema.plain AuthFixture.bcrypt_hash
        AuthFixture.first "salt" 1 0 ∅).2 ∧
   emailsUnique
     (Jwt.signup AuthFixture.env UserSchema.plain AuthFixture.bcrypt_hash
        AuthFixture.first "salt" 1 0 ∅).2) ∧
  (usersWellKeyed
     (Session.signup UserSchema.plain AuthFixture.bcrypt_hash
        AuthFixture.first "salt" 1 "sid" ∅ ∅).2.1 ∧
   emailsUnique
     (Session.signup UserSchema.plain AuthFixture.bcrypt_hash
        AuthFixture.first "salt" 1 "sid" ∅ ∅).2.1) ∧
  (usersWellKeyed
     (Embedded.signup UserSchema.plain AuthFixture.bcrypt_hash
        AuthFixture.first "salt" 1 ∅).2 ∧
   emailsUnique
     (Embedded.signup UserSchema.plain AuthFixture.bcrypt_hash
        AuthFixture.first "salt" 1 ∅).2).
Proof.
  apply (signup_keeps_users_wellformed UserSchema.plain AuthFixture.env
           AuthFixture.bcrypt_hash AuthFixture.first "salt" 1 0 "sid" ∅ ∅).
  - apply map_Forall_empty.
  - intros k1 k2 u1 u2 H. by rewrite lookup_empty in H.
Defined.

Lemma Session_login_opens_only_own_session_witness :
  Session.login UserSchema.plain AuthFixture.bcrypt_compare (LoginBody.mk "a@x.com" "p1")
    "sid" (AuthFixture.registered UserSchema.plain) ∅
  = (ok (JMsgUser "Login successful" (publicUser AuthFixture.userA)), {[ "sid" := 1 ]}) ∧
  ((∃ u, ok (JMsgUser "Login successful" (publicUser AuthFixture.userA))
         = ok (JMsgUser "Login successful" (publicUser u)) ∧
         Session.requireAuth (Some "sid") {[ "sid" := 1 ]} = inr (user_id u) ∧
         Session.session (Some "sid") (AuthFixture.registered UserSchema.plain)
           {[ "sid" := 1 ]} = ok (JUser (publicUser u))) ∨
   (ok (JMsgUser "Login successful" (publicUser AuthFixture.userA))
    = json 401 (JError "Invalid email or password") ∧
    ({[ "sid" := 1 ]} : gmap string ObjectId) = ∅)) ∧
  ∀ sid', sid' ≠ "sid" →
    Session.requireAuth (Some sid') {[ "sid" := 1 ]} = Session.requireAuth (Some sid') ∅.
Proof.
  split; [vm_compute; reflexivity|].
  apply (Session_login_opens_only_own_session UserSchema.plain AuthFixture.bcrypt_compare
           (LoginBody.mk "a@x.com" "p1") "sid" (AuthFixture.registered UserSchema.plain)
           ∅ {[ "sid" := 1 ]});
    [apply registered_plain_wellKeyed | vm_compute; reflexivity].
Defined.

Lemma Session_signup_logs_in_witness :
  Session.signup UserSchema.plain AuthFixture.bcrypt_hash AuthFixture.first "salt" 1 "sid" ∅ ∅
  = (json 201 (JMsgUser "User created successfully" (publicUser AuthFixture.userA)),
     ({[ 1 := AuthFixture.userA ]}, {[ "sid" := 1 ]})) ∧
  ((status (json 201 (JMsgUser "User created successfully" (publicUser AuthFixture.userA)))
    = 201 ∧
    ∃ u, json 201 (JMsgUser "User created successfully" (publicUser AuthFixture.userA))
         = json 201 (JMsgUser "User created successfully" (publicUser u)) ∧
         user_id u = 1 ∧
         ({[ 1 := AuthFixture.userA ]} : gmap ObjectId User) !! 1 = Some u ∧
         Session.requireAuth (Some "sid") {[ "sid" := 1 ]} = inr 1 ∧
         Session.session (Some "sid") {[ 1 := AuthFixture.userA ]} {[ "sid" := 1 ]}
         = ok (JUser (publicUser u))) ∨
   (status (json 201 (JMsgUser "User created successfully" (publicUser AuthFixture.userA)))
    ≠ 201 ∧
    ({[ 1 := AuthFixture.userA ]} : gmap ObjectId User) = ∅ ∧
    ({[ "sid" := 1 ]} : gmap string ObjectId) = ∅)).
Proof.
  split; [vm_compute; reflexivity|].
  apply (Session_signup_logs_in UserSchema.plain AuthFixture.bcrypt_hash AuthFixture.first
           "salt" 1 "sid" ∅ {[ 1 := AuthFixture.userA ]} ∅ {[ "sid" := 1 ]}).
  vm_compute. reflexivity.
Defined.

Lemma Legacy_createNote_only_in_own_scope_witness :
  Legacy.createNote (Some Fixture.alice) Fixture.alice (Some "T1") None 1 10 ∅
  = (json 201 (JNote Fixture.T1), {[ 1 := Fixture.T1 ]}) ∧
  ((Some Fixture.alice = Some Fixture.alice ∧ (∅ : gmap ObjectId Note) !! 1 = None ∧
    ∃ note, json 201 (JNote Fixture.T1) = json 201 (JNote note) ∧
            user note = Fixture.alice ∧ _id note = 1 ∧
            ({[ 1 := Fixture.T1 ]} : gmap ObjectId Note) = <[1 := note]> ∅) ∨
   (status (json 201 (JNote Fixture.T1)) ≠ 201 ∧
    ({[ 1 := Fixture.T1 ]} : gmap ObjectId Note) = ∅)).
Proof.
  split; [vm_compute; reflexivity|].
  apply (Legacy_createNote_only_in_own_scope (Some Fixture.alice) Fixture.alice
           (Some "T1") None 1 10 ∅ {[ 1 := Fixture.T1 ]} (json 201 (JNote Fixture.T1))).
  vm_compute. reflexivity.
Defined.




Lemma scoped_routes_hide_other_owners_witness :
  (Fixture.twoNotes !! 1 = Some Fixture.T1 ∧ user Fixture.T1 = Fixture.alice ∧
   Fixture.bob ≠ Fixture.alice ∧ Fixture.twoNotes !! 99 = None) ∧
  (Notes.getNote Fixture.bob 1 Fixture.twoNotes = notFound ∧
   Notes.getNote Fixture.bob 99 Fixture.twoNotes = notFound) ∧
  (Notes.updateNote Fixture.bob 1 PinFixture.pinOnly 40 Fixture.twoNotes
     = (notFound, Fixture.twoNotes) ∧
   Notes.updateNote Fixture.bob 99 PinFixture.pinOnly 40 Fixture.twoNotes
     = (notFound, Fixture.twoNotes)) ∧
  (Notes.deleteNote Fixture.bob 1 Fixture.twoNotes = (notFound, Fixture.twoNotes) ∧
   Notes.deleteNote Fixture.bob 99 Fixture.twoNotes = (notFound, Fixture.twoNotes)) ∧
  (Notes.togglePin Fixture.bob 1 40 Fixture.twoNotes = (notFound, Fixture.twoNotes) ∧
   Notes.togglePin Fixture.bob 99 40 Fixture.twoNotes = (notFound, Fixture.twoNotes)) ∧
  (Notes.setArchived Fixture.bob 1 None 40 Fixture.twoNotes = (notFound, Fixture.twoNotes) ∧
   Notes.setArchived Fixture.bob 99 None 40 Fixture.twoNotes = (notFound, Fixture.twoNotes)).
Proof.
  split; [repeat split; try (vm_compute; reflexivity); discriminate|].
  apply (scoped_routes_hide_other_owners Fixture.alice Fixture.bob 1 99 Fixture.T1
           Fixture.twoNotes PinFixture.pinOnly None 40);
    try (vm_compute; reflexivity); discriminate.
Defined.

Lemma signup_twice_witness :
  (Jwt.signup AuthFixture.env UserSchema.normalized AuthFixture.bcrypt_hash
     AuthFixture.first "salt" 1 0 ∅
   = (json 201 (JMsgTokenUser "User created successfully" TokenFixture.token
                  (publicUser AuthFixture.userA)),
      {[ 1 := AuthFixture.userA ]}) ∧
   UserSchema.castEmail UserSchema.normalized (SignupBody.email AuthFixture.variant)
   = UserSchema.castEmail UserSchema.normalized (SignupBody.email AuthFixture.first)) ∧
  Jwt.signup AuthFixture.env UserSchema.normalized AuthFixture.bcrypt_hash
    AuthFixture.variant "salt" 2 1000 {[ 1 := AuthFixture.userA ]}
  = (json 400 (JError "User already exists"), {[ 1 := AuthFixture.userA ]}) ∧
  exactlyOneRecord
    (UserSchema.castEmail UserSchema.normalized (SignupBody.email AuthFixture.first))
    {[ 1 := AuthFixture.userA ]}.
Proof.
  split; [split; vm_compute; reflexivity|].
  apply (signup_twice UserSchema.normalized AuthFixture.env AuthFixture.bcrypt_hash
           AuthFixture.first AuthFixture.variant "salt" "salt" 1 2 0 1000 ∅
           {[ 1 := AuthFixture.userA ]}
           (json 201 (JMsgTokenUser "User created successfully" TokenFixture.token
                        (publicUser AuthFixture.userA))));
    vm_compute; reflexivity.
Defined.
